(** * code_report_template_creator: main.py

    A shallow embedding of [main.py], the whole program: the directory scan
    ([scan_project]), the per-file extraction ([process_file],
    [analyze_function]), the renderer ([generate_report]) and the entry
    point, followed by the properties the specification states about them.

    Python [str] is modelled as [string] (a byte string), a [dict] that is
    used as a struct as a [Record], a [dict] that is used as a map as an
    association list in insertion order, exceptions as a sum type threaded
    through a small state-and-error monad over the observable world
    (console, files opened, files written).

    The program is given twice: first as it runs when the libraries it
    calls do not raise after a file has parsed, then (module [full]) with
    the exceptions of [ast.unparse], of the document library and of the
    encoder as parameters.  Where none of them is raised the two agree
    ([full_scan_agrees], [full_report_agrees]). *)

From Stdlib Require Import List String Ascii Bool Arith Lia Permutation.
Import ListNotations.

Local Set Warnings "-register-all".

Local Open Scope string_scope.
Local Open Scope list_scope.

(** String concatenation, Python's [+] on [str]. *)
Infix "+++" := String.append (at level 60, right associativity).

(* ================================================================== *)
(** ** Python string primitives used by the program *)

Module PyStr.

(** [s.endswith(suffix)] *)
Fixpoint endswith (s suffix : string) : bool :=
  if String.eqb s suffix then true
  else match s with
       | EmptyString => false
       | String _ r => endswith r suffix
       end.

(** [s.startswith(p)] *)
Definition startswith (s p : string) : bool := String.prefix p s.

(** [s.replace('', new)]: [new] before every character and at the end. *)
Fixpoint replace_empty (new s : string) : string :=
  match s with
  | EmptyString => new
  | String c r => new +++ String c (replace_empty new r)
  end.

(** The scan of [s.replace(old, new)] for a non-empty [old]: occurrences are
    found left to right and do not overlap; [skip] counts the characters of
    the occurrence just replaced that are still to be dropped. *)
Fixpoint replace_from (old new : string) (skip : nat) (s : string) : string :=
  match s with
  | EmptyString => EmptyString
  | String c r =>
      match skip with
      | S k => replace_from old new k r
      | O =>
          if String.prefix old s
          then new +++ replace_from old new (String.length old - 1) r
          else String c (replace_from old new 0 r)
      end
  end.

(** [s.replace(old, new)] *)
Definition replace (s old new : string) : string :=
  match old with
  | EmptyString => replace_empty new s
  | _ => replace_from old new 0 s
  end.

(** [sep.join(parts)] *)
Fixpoint join (sep : string) (parts : list string) : string :=
  match parts with
  | [] => ""
  | [p] => p
  | p :: ps => p +++ sep +++ join sep ps
  end.

(** [c * n] for a one-character string [c]. *)
Fixpoint repeat_char (c : ascii) (n : nat) : string :=
  match n with
  | O => ""
  | S k => String c (repeat_char c k)
  end.

(** [s.rstrip(c)] for one character. *)
Fixpoint rstrip (c : ascii) (s : string) : string :=
  match s with
  | EmptyString => EmptyString
  | String a r =>
      match rstrip c r with
      | EmptyString => if Ascii.eqb a c then EmptyString else String a EmptyString
      | r' => String a r'
      end
  end.

(** Every character of [s] is [c]: [s == c * len(s)]. *)
Fixpoint all_char (c : ascii) (s : string) : bool :=
  match s with
  | EmptyString => true
  | String a r => Ascii.eqb a c && all_char c r
  end.

(** [c in s] *)
Fixpoint contains_char (c : ascii) (s : string) : bool :=
  match s with
  | EmptyString => false
  | String a r => Ascii.eqb a c || contains_char c r
  end.

Definition is_empty (s : string) : bool :=
  match s with EmptyString => true | _ => false end.

(** *** [repr] of a [str]

    CPython's [unicode_repr]: single quotes unless the text has a single
    quote and no double quote; the quote, the backslash, tab, newline and
    carriage return are escaped, other control characters are written
    [\xhh].  This is [repr] on ASCII text and on text whose other
    characters are printable: bytes from 128 up, the UTF-8 encoding of
    such characters, are kept; the escapes [repr] writes for non-ASCII
    characters that are not printable are not modelled. *)

Definition hex_digit (n : nat) : ascii :=
  match n with
  | 0 => "0" | 1 => "1" | 2 => "2" | 3 => "3" | 4 => "4" | 5 => "5"
  | 6 => "6" | 7 => "7" | 8 => "8" | 9 => "9" | 10 => "a" | 11 => "b"
  | 12 => "c" | 13 => "d" | 14 => "e" | _ => "f"
  end%char.

Definition repr_char (quote c : ascii) : string :=
  let n := nat_of_ascii c in
  if Ascii.eqb c quote || Ascii.eqb c "\"%char then String "\" (String c "")
  else if Nat.eqb n 9 then "\t"
  else if Nat.eqb n 10 then "\n"
  else if Nat.eqb n 13 then "\r"
  else if Nat.ltb n 32 || Nat.eqb n 127
       then String "\" (String "x" (String (hex_digit (n / 16))
                                       (String (hex_digit (n mod 16)) "")))
  else String c "".

Fixpoint repr_body (quote : ascii) (s : string) : string :=
  match s with
  | EmptyString => ""
  | String c r => repr_char quote c +++ repr_body quote r
  end.

Definition squote : ascii := "'"%char.
Definition dquote : ascii := Ascii.ascii_of_nat 34.

Definition repr (s : string) : string :=
  let q := if contains_char squote s && negb (contains_char dquote s)
           then dquote else squote in
  String q (repr_body q s +++ String q "").

(** [str(l)] of a list of [str]: [repr] of the items between brackets. *)
Definition str_of_list (l : list string) : string :=
  "[" +++ join ", " (map repr l) +++ "]".

End PyStr.

(* ================================================================== *)
(** ** [os.path] (posixpath) *)

Module os_path.

Definition sep : ascii := "/"%char.

(** [head, tail = p[:i], p[i:]] with [i = p.rfind('/') + 1]. *)
Fixpoint rsplit (p : string) : string * string :=
  match p with
  | EmptyString => ("", "")
  | String c r =>
      let (h, t) := rsplit r in
      match h with
      | EmptyString =>
          if Ascii.eqb c sep then (String c "", t) else ("", String c t)
      | _ => (String c h, t)
      end
  end.

(** [os.path.basename(p)] *)
Definition basename (p : string) : string := snd (rsplit p).

(** [os.path.dirname(p)] *)
Definition dirname (p : string) : string :=
  let head := fst (rsplit p) in
  if negb (PyStr.is_empty head) && negb (PyStr.all_char sep head)
  then PyStr.rstrip sep head
  else head.

(** [os.path.join(a, b)] *)
Definition join (a b : string) : string :=
  if PyStr.startswith b "/" then b
  else if PyStr.is_empty a || PyStr.endswith a "/" then a +++ b
  else a +++ "/" +++ b.

End os_path.

(* ================================================================== *)
(** ** The [ast] module: syntax trees, [walk], [get_docstring], [unparse]

    The statements modelled field by field are [def], [async def],
    [class] (without keyword arguments), [if], [return], the expression
    statement and [pass]; the expressions are names, attributes,
    subscripts and the constants [None], [...] and strings, which is what
    parameter and return annotations are mostly written with.  A statement
    of any other class ([for], [while], [with], [try], [match], an
    assignment, ...) is an [Other] node and an expression of any other
    class (a call, an operation, a tuple, a number, a lambda, ...) an
    [OtherExpr] node, both given by their child nodes, so that every tree
    [ast.parse] returns has its counterpart.  Field order follows the
    [_fields] of each node class, which is the order [iter_child_nodes]
    yields the children in. *)

Module ast.

Inductive constant :=
| CNone
| CEllipsis
| CStr (s : string).

(** [OtherExpr source fields] is an expression of another class:
    [fields] are its child nodes (one that is not an expression, such as
    an operator, a keyword argument or a comprehension clause, is given in
    the same way), and [source] is the text that [ast.unparse] writes for
    it where it stands, with what its position adds around it (the
    parentheses of an operand, the space between an integer literal and
    the dot of an attribute; a tuple that is a subscript has none). *)
Inductive expr :=
| Name (id : string)
| Attribute (value : expr) (attr : string)
| Subscript (value : expr) (slice : expr)
| Constant (value : constant) (kind_u : bool)
| OtherExpr (source : string) (fields : list expr).

(** [ast.arg]: the parameter name is the field [arg]. *)
Record ast_arg := mk_arg {
  arg : string;
  annotation : option expr
}.

Record arguments := mk_arguments {
  posonlyargs : list ast_arg;
  args : list ast_arg;
  vararg : option ast_arg;
  kwonlyargs : list ast_arg;
  kw_defaults : list (option expr);
  kwarg : option ast_arg;
  defaults : list expr
}.

Inductive stmt :=
| FunctionDef (name : string) (a : arguments) (body : list stmt)
    (decorator_list : list expr) (returns : option expr)
| AsyncFunctionDef (name : string) (a : arguments) (body : list stmt)
    (decorator_list : list expr) (returns : option expr)
| ClassDef (name : string) (bases : list expr) (body : list stmt)
    (decorator_list : list expr)
| If (test : expr) (body : list stmt) (orelse : list stmt)
| Return (value : option expr)
| Expr (value : expr)
| Pass
| Other (fields : list child)
(** A child node of a statement of another class: a statement, an
    expression, or a node of yet another class (an except handler, a with
    item, a match case), given in turn by its child nodes. *)
with child :=
| ChildStmt (s : stmt)
| ChildExpr (e : expr)
| ChildNode (fields : list child).

(** Any node of a tree, as [ast.walk] yields them. *)
Inductive node :=
| NModule (body : list stmt)
| NStmt (s : stmt)
| NExpr (e : expr)
| NArguments (a : arguments)
| NArg (a : ast_arg)
| NLoad
| NOther (fields : list child).

Definition child_node (c : child) : node :=
  match c with
  | ChildStmt s => NStmt s
  | ChildExpr e => NExpr e
  | ChildNode fields => NOther fields
  end.

Definition opt_list {A} (o : option A) : list A :=
  match o with Some a => [a] | None => [] end.

(** [ast.iter_child_nodes(node)] *)
Definition iter_child_nodes (n : node) : list node :=
  match n with
  | NModule body => map NStmt body
  | NStmt (FunctionDef _ a body decos returns)
  | NStmt (AsyncFunctionDef _ a body decos returns) =>
      NArguments a :: map NStmt body ++ map NExpr decos
        ++ map NExpr (opt_list returns)
  | NStmt (ClassDef _ bases body decos) =>
      map NExpr bases ++ map NStmt body ++ map NExpr decos
  | NStmt (If test body orelse) =>
      NExpr test :: map NStmt body ++ map NStmt orelse
  | NStmt (Return value) => map NExpr (opt_list value)
  | NStmt (Expr value) => [NExpr value]
  | NStmt Pass => []
  | NStmt (Other fields) => map child_node fields
  | NExpr (Name _) => [NLoad]
  | NExpr (Attribute value _) => [NExpr value; NLoad]
  | NExpr (Subscript value slice) => [NExpr value; NExpr slice; NLoad]
  | NExpr (Constant _ _) => []
  | NExpr (OtherExpr _ fields) => map NExpr fields
  | NArguments a =>
      map NArg (posonlyargs a) ++ map NArg (args a)
        ++ map NArg (opt_list (vararg a)) ++ map NArg (kwonlyargs a)
        ++ map NExpr (flat_map opt_list (kw_defaults a))
        ++ map NArg (opt_list (kwarg a)) ++ map NExpr (defaults a)
  | NArg a => map NExpr (opt_list (annotation a))
  | NLoad => []
  | NOther fields => map child_node fields
  end.

(** The nodes of a subtree, the root first (used as the measure of [walk]
    and to say which nodes a tree has). *)
Fixpoint expr_nodes (e : expr) : list node :=
  NExpr e ::
  match e with
  | Name _ => [NLoad]
  | Attribute v _ => expr_nodes v ++ [NLoad]
  | Subscript v s => expr_nodes v ++ expr_nodes s ++ [NLoad]
  | Constant _ _ => []
  | OtherExpr _ fields => flat_map expr_nodes fields
  end.

Definition arg_nodes (a : ast_arg) : list node :=
  NArg a :: flat_map expr_nodes (opt_list (annotation a)).

Definition arguments_nodes (a : arguments) : list node :=
  NArguments a ::
    flat_map arg_nodes (posonlyargs a) ++ flat_map arg_nodes (args a)
    ++ flat_map arg_nodes (opt_list (vararg a))
    ++ flat_map arg_nodes (kwonlyargs a)
    ++ flat_map expr_nodes (flat_map opt_list (kw_defaults a))
    ++ flat_map arg_nodes (opt_list (kwarg a))
    ++ flat_map expr_nodes (defaults a).

Fixpoint stmt_nodes (s : stmt) : list node :=
  NStmt s ::
  match s with
  | FunctionDef _ a body decos returns
  | AsyncFunctionDef _ a body decos returns =>
      arguments_nodes a ++ flat_map stmt_nodes body
        ++ flat_map expr_nodes decos ++ flat_map expr_nodes (opt_list returns)
  | ClassDef _ bases body decos =>
      flat_map expr_nodes bases ++ flat_map stmt_nodes body
        ++ flat_map expr_nodes decos
  | If test body orelse =>
      expr_nodes test ++ flat_map stmt_nodes body ++ flat_map stmt_nodes orelse
  | Return value => flat_map expr_nodes (opt_list value)
  | Expr value => expr_nodes value
  | Pass => []
  | Other fields => flat_map child_nodes fields
  end
with child_nodes (c : child) : list node :=
  match c with
  | ChildStmt s => stmt_nodes s
  | ChildExpr e => expr_nodes e
  | ChildNode fields => NOther fields :: flat_map child_nodes fields
  end.

Definition descendants (n : node) : list node :=
  match n with
  | NModule body => n :: flat_map stmt_nodes body
  | NStmt s => stmt_nodes s
  | NExpr e => expr_nodes e
  | NArguments a => arguments_nodes a
  | NArg a => arg_nodes a
  | NLoad => [NLoad]
  | NOther fields => n :: flat_map child_nodes fields
  end.

(** The loop of [ast.walk]: [todo] is the deque, the node popped on the
    left is yielded and its children are appended on the right.  [fuel]
    bounds the number of iterations. *)
Fixpoint walk_loop (fuel : nat) (todo : list node) : list node :=
  match fuel, todo with
  | S k, n :: rest => n :: walk_loop k (rest ++ iter_child_nodes n)
  | _, _ => []
  end.

(** [ast.walk(node)], run for as many iterations as the tree has nodes
    ([walk_loop_enough] shows that the deque is then empty). *)
Definition walk (n : node) : list node :=
  walk_loop (List.length (descendants n)) [n].

(** [ast.unparse(e)]: every operand position takes the expressions of the
    fragment without parentheses; an expression of another class comes
    with its text. *)
Fixpoint unparse (e : expr) : string :=
  match e with
  | Name id => id
  | Attribute v attr => unparse v +++ "." +++ attr
  | Subscript v s => unparse v +++ "[" +++ unparse s +++ "]"
  | Constant CNone _ => "None"
  | Constant CEllipsis _ => "..."
  | Constant (CStr s) u => (if u then "u" else "") +++ PyStr.repr s
  | OtherExpr source _ => source
  end.

(** [ast.get_docstring(node)] for a node with the given [body];
    [cleandoc] is [inspect.cleandoc]. *)
Definition get_docstring (cleandoc : string -> string) (body : list stmt)
  : option string :=
  match body with
  | Expr (Constant (CStr text) _) :: _ => Some (cleandoc text)
  | _ => None
  end.

End ast.

(* ================================================================== *)
(** ** The records of the data model *)

(** [arg_info]: [{'name': ..}] with the key ['type'] when annotated. *)
Record ArgInfo := mk_arg_info {
  arg_name : string;
  arg_type : option string
}.

(** [func_details] *)
Record FunctionRecord := mk_function {
  name : string;
  args : list ArgInfo;
  returns : option string;
  docstring : string
}.

(** A module mapping: module name to its functions, in insertion order. *)
Definition ModuleMap := list (string * list FunctionRecord).

(** [{'modules': {...}}] *)
Record FileRecord := mk_file_record {
  modules : ModuleMap
}.

(** [project_data]: file path to [FileRecord], in insertion order. *)
Definition ProjectData := list (string * FileRecord).

(** *** [dict] operations on association lists *)

Module dict.
Section Dict.
Context {V : Type}.

(** [d.get(k)] *)
Fixpoint get (d : list (string * V)) (k : string) : option V :=
  match d with
  | [] => None
  | (k', v) :: r => if String.eqb k' k then Some v else get r k
  end.

(** [d[k] = v]: an existing key keeps its place. *)
Fixpoint set (d : list (string * V)) (k : string) (v : V) : list (string * V) :=
  match d with
  | [] => [(k, v)]
  | (k', v') :: r =>
      if String.eqb k' k then (k', v) :: r else (k', v') :: set r k v
  end.

Definition keys (d : list (string * V)) : list string := map fst d.

End Dict.
End dict.

(** [d.setdefault(k, []).append(x)] on a mapping to lists. *)
Definition setdefault_append {V} (d : list (string * list V)) (k : string)
    (x : V) : list (string * list V) :=
  match dict.get d k with
  | Some l => dict.set d k (l ++ [x])
  | None => dict.set d k [x]
  end.

(** [bool(d)] of a mapping or list. *)
Definition truthy {A} (l : list A) : bool :=
  match l with [] => false | _ => true end.

(* ================================================================== *)
(** ** [analyze_function] *)

Definition arg_info_of (a : ast.ast_arg) : ArgInfo :=
  {| arg_name := ast.arg a;
     arg_type := option_map ast.unparse (ast.annotation a) |}.

(** [analyze_function(node)] for the node
    [FunctionDef(name, a, body, _, returns)]. *)
Definition analyze_function (cleandoc : string -> string)
    (fname : string) (a : ast.arguments) (body : list ast.stmt)
    (ret : option ast.expr) : FunctionRecord :=
  {| name := fname;
     args := map arg_info_of (ast.args a);
     returns := option_map ast.unparse ret;
     docstring :=
       match ast.get_docstring cleandoc body with
       | Some d => d
       | None => ""
       end |}.

(* ================================================================== *)
(** ** The world the program acts on, and its effects *)

(** An exception: its class and its [str(e)].  Every exception modelled
    here is a subclass of [Exception]. *)
Record exn := mk_exn {
  exn_class : string;
  exn_str : string
}.

(** The document library: a document is the sequence of blocks added. *)
Inductive doc_item :=
| Heading (text : string) (level : nat)
| Paragraph (text : string).

Definition document := list doc_item.

(** What a written file holds. *)
Inductive artifact :=
| TextFile (content : string)
| DocxFile (d : document).

(** A file of the scanned tree, by what happens when it is read:
    [open] raises, [f.read()] raises (a decoding or device error), or the
    text comes back. *)
Inductive file :=
| OpenFails (e : exn)
| ReadFails (e : exn)
| Content (text : string).

(** A directory: its subdirectories and its other entries, by name. *)
Inductive dir :=
| Dir (subdirs : list (string * dir)) (files : list (string * file)).

Record world := mk_world {
  console : list string;               (* lines printed, oldest first *)
  opened : list string;                (* paths given to open(.., 'r') *)
  cwd : list (string * artifact);      (* files written, by name *)
  cwd_writable : bool                  (* can output files be created? *)
}.

(** State and exceptions: a computation ends with a value or a raised
    exception, and the world as it left it. *)
Definition M (A : Type) : Type := world -> (exn + A) * world.

Definition ret {A} (a : A) : M A := fun w => (inr a, w).

Definition bind {A B} (m : M A) (k : A -> M B) : M B :=
  fun w => match m w with
           | (inr a, w') => k a w'
           | (inl e, w') => (inl e, w')
           end.

Definition raise {A} (e : exn) : M A := fun w => (inl e, w).

(** [try: m  except Exception as e: h e] *)
Definition try_except {A} (m : M A) (h : exn -> M A) : M A :=
  fun w => match m w with
           | (inl e, w') => h e w'
           | r => r
           end.

Declare Scope py_scope.
Delimit Scope py_scope with py.
Notation "x <- m ;; k" := (bind m (fun x => k))
  (at level 100, m at next level, right associativity) : py_scope.
Notation "m ;;; k" := (bind m (fun _ => k))
  (at level 100, right associativity) : py_scope.
Local Open Scope py_scope.

(** [for x in l: acc = body acc x], stopping at the first exception. *)
Fixpoint for_each {A S} (l : list A) (body : S -> A -> M S) (acc : S) : M S :=
  match l with
  | [] => ret acc
  | x :: r => acc' <- body acc x ;; for_each r body acc'
  end.

(** [print(s)] *)
Definition print (s : string) : M unit :=
  fun w => (inr tt, mk_world (console w ++ [s]) (opened w) (cwd w) (cwd_writable w)).

(** [open(path, 'r', encoding='utf-8')] on the file [f] found at [path]. *)
Definition open_r (path : string) (f : file) : M file :=
  fun w =>
    let w' := mk_world (console w) (opened w ++ [path]) (cwd w) (cwd_writable w) in
    match f with
    | OpenFails e => (inl e, w')
    | _ => (inr f, w')
    end.

(** [f.read()] *)
Definition read (f : file) : M string :=
  match f with
  | Content text => ret text
  | ReadFails e | OpenFails e => raise e
  end.

(** Creating or overwriting the output file [fname] with [a]: [open] in
    write mode, then the write, where the write does not raise;
    [full.write_text] below has the exception of the encoder, raised when
    [open] has already emptied the file. *)
Definition write_file (fname : string) (a : artifact) : M unit :=
  fun w =>
    if cwd_writable w
    then (inr tt, mk_world (console w) (opened w) (dict.set (cwd w) fname a)
                    (cwd_writable w))
    else (inl (mk_exn "PermissionError"
                 ("[Errno 13] Permission denied: " +++ PyStr.repr fname)), w).

(** [os.walk(top)] over the directory [d], top-down: for each directory the
    triple (dirpath, dirnames, filenames).  A file name comes with the
    file it names, which is what [open] on the joined path reaches. *)
Fixpoint os_walk (top : string) (d : dir)
  : list (string * list string * list (string * file)) :=
  match d with
  | Dir subdirs files =>
      (top, map fst subdirs, files)
        :: flat_map (fun nd => os_walk (os_path.join top (fst nd)) (snd nd)) subdirs
  end.

Definition nl : string := String (Ascii.ascii_of_nat 10) "".

(* ================================================================== *)
(** ** The program *)

Section Program.

(** [ast.parse]: the module body, or the exception raised. *)
Variable ast_parse : string -> exn + list ast.stmt.
(** [inspect.cleandoc], used by [ast.get_docstring]. *)
Variable cleandoc : string -> string.
(** [os.path.abspath] *)
Variable abspath : string -> string.
(** The global [Document]: [true] when [from docx import Document]
    succeeded, [false] when it is [None]. *)
Variable Document : bool.
(** The path of the running script. *)
Variable __file__ : string.

Definition parse (text : string) : M (list ast.stmt) :=
  match ast_parse text with
  | inl e => raise e
  | inr body => ret body
  end.

(** [os.path.basename(file_path).replace('.py', '')] *)
Definition module_name_of (file_path : string) : string :=
  PyStr.replace (os_path.basename file_path) ".py" "".

(** The body of the loop over [ast.walk(tree)]. *)
Definition visit (file_path : string) (result : ModuleMap) (n : ast.node)
  : ModuleMap :=
  match n with
  | ast.NStmt (ast.FunctionDef fname a body _ ret) =>
      let module_name := module_name_of file_path in
      setdefault_append result module_name
        (analyze_function cleandoc fname a body ret)
  | _ => result
  end.

(** [process_file(file_path)], with [f] the file that [open] reaches at
    [file_path], where [ast.unparse] does not raise: in the [try] block
    only [f.read()] and [ast.parse] raise then, both before [result] is
    first updated.  [full.process_file] below is the function with the
    exceptions of [ast.unparse]. *)
Definition process_file (file_path : string) (f : file) : M FileRecord :=
  fh <- open_r file_path f ;;
  mods <- try_except
            (text <- read fh ;;
             tree <- parse text ;;
             ret (fold_left (visit file_path) (ast.walk (ast.NModule tree)) []))
            (fun e =>
               print ("Error parsing " +++ file_path +++ ": " +++ exn_str e) ;;;
               ret []) ;;
  ret {| modules := mods |}.

(** The test on a file name in [scan_project]. *)
Definition eligible (filename : string) : bool :=
  PyStr.endswith filename ".py"
  && negb (String.eqb filename (os_path.basename __file__)).

(** [scan_project(root_dir)] over the directory [tree] found at [root_dir]. *)
Definition scan_project (root_dir : string) (tree : dir) : M ProjectData :=
  for_each (os_walk root_dir tree)
    (fun project_data entry =>
       let '(dirpath, _, filenames) := entry in
       for_each filenames
         (fun project_data nf =>
            let '(filename, f) := nf in
            if eligible filename then
              let full_path := os_path.join dirpath filename in
              data <- process_file full_path f ;;
              if truthy (modules data)
              then ret (dict.set project_data full_path data)
              else ret project_data
            else ret project_data)
         project_data)
    [].

(** The local variables of [generate_report]; [None] is unbound. *)
Record locals := mk_locals {
  doc : option document;
  lines : option (list string)
}.

Definition unbound (var : string) : exn :=
  mk_exn "UnboundLocalError"
    ("cannot access local variable '" +++ var
       +++ "' where it is not associated with a value").

(** [doc.add_heading(..)] and [doc.add_paragraph(..)], where the library
    accepts the text; [full.doc_add] below has the exceptions it raises
    for a text it refuses. *)
Definition doc_add (loc : locals) (item : doc_item) : M locals :=
  match doc loc with
  | Some d => ret (mk_locals (Some (d ++ [item])) (lines loc))
  | None => raise (unbound "doc")
  end.

(** [lines.append(..)] *)
Definition lines_append (loc : locals) (line : string) : M locals :=
  match lines loc with
  | Some l => ret (mk_locals (doc loc) (Some (l ++ [line])))
  | None => raise (unbound "lines")
  end.

Definition arg_names (func : FunctionRecord) : string :=
  PyStr.str_of_list (map arg_name (args func)).

(** [func['returns'] or 'None'] *)
Definition returns_or_None (func : FunctionRecord) : string :=
  match returns func with
  | Some s => if PyStr.is_empty s then "None" else s
  | None => "None"
  end.

Definition dashes : string := PyStr.repeat_char "-" 40.
Definition equals : string := PyStr.repeat_char "=" 40.

Definition report_function (docx : bool) (loc : locals) (func : FunctionRecord)
  : M locals :=
  if docx then
    loc <- doc_add loc (Heading (name func) 3) ;;
    loc <- doc_add loc (Paragraph ("Arguments: " +++ arg_names func)) ;;
    loc <- doc_add loc (Paragraph ("Returns: " +++ returns_or_None func)) ;;
    doc_add loc (Paragraph ("Description: " +++ docstring func))
  else
    loc <- lines_append loc (nl +++ "Function: " +++ name func) ;;
    loc <- lines_append loc ("Inputs: " +++ arg_names func) ;;
    loc <- lines_append loc ("Returns: " +++ returns_or_None func) ;;
    loc <- lines_append loc ("Description: " +++ docstring func) ;;
    lines_append loc dashes.

Definition report_module (docx : bool) (loc : locals)
    (m : string * list FunctionRecord) : M locals :=
  let '(module, functions) := m in
  loc <- (if docx then doc_add loc (Heading ("Module: " +++ module) 2)
          else lines_append loc (nl +++ "Module: " +++ module +++ nl +++ equals)) ;;
  for_each functions (report_function docx) loc.

Definition report_file (docx : bool) (loc : locals)
    (entry : string * FileRecord) : M locals :=
  let '(file_path, mods) := entry in
  loc <- (if docx then doc_add loc (Heading ("File: " +++ file_path) 1)
          else lines_append loc (nl +++ "File: " +++ file_path +++ nl +++ dashes)) ;;
  for_each (modules mods) (report_module docx) loc.

(** [generate_report(data, output_format)] *)
Definition generate_report (data : ProjectData) (output_format : string)
  : M unit :=
  let docx := String.eqb output_format "docx" in
  let loc0 := if docx && Document
              then mk_locals (Some [Heading "Project Documentation" 0]) None
              else mk_locals None (Some []) in
  loc <- for_each data (report_file docx) loc0 ;;
  if docx && Document then
    match doc loc with
    | Some d =>
        write_file "project_documentation.docx" (DocxFile d) ;;;
        print "Word document generated: project_documentation.docx"
    | None => raise (unbound "doc")
    end
  else
    match lines loc with
    | Some l =>
        write_file "project_documentation.txt" (TextFile (PyStr.join nl l)) ;;;
        print "Text document generated: project_documentation.txt"
    | None => raise (unbound "lines")
    end.

(** The [__main__] block, with [tree] the directory at the project root. *)
Definition main (tree : dir) : M unit :=
  let project_root := os_path.dirname (abspath __file__) in
  project_data <- scan_project project_root tree ;;
  if Document then generate_report project_data "docx"
  else
    generate_report project_data "txt" ;;;
    print "Install python-docx for Word document support".

End Program.

Arguments module_name_of file_path : simpl never.
Arguments ast.walk n : simpl never.

(* ================================================================== *)
(** ** What a run computes, stated on lists

    The definitions below describe the results of the program without the
    monad; the lemmas of the second part relate the program to them. *)

Section Results.

Variable ast_parse : string -> exn + list ast.stmt.
Variable cleandoc : string -> string.
Variable __file__ : string.

(** The record a node gives rise to: one for a [FunctionDef], none for any
    other node. *)
Definition record_of (n : ast.node) : list FunctionRecord :=
  match n with
  | ast.NStmt (ast.FunctionDef fname a body _ ret) =>
      [analyze_function cleandoc fname a body ret]
  | _ => []
  end.

Definition records_of (ns : list ast.node) : list FunctionRecord :=
  flat_map record_of ns.

(** The records of a parsed file, in the order [ast.walk] meets the
    definitions. *)
Definition file_functions (body : list ast.stmt) : list FunctionRecord :=
  records_of (ast.walk (ast.NModule body)).

(** A module mapping holding [recs] under [m], empty when there are none. *)
Definition group (m : string) (recs : list FunctionRecord) : ModuleMap :=
  match recs with
  | [] => []
  | _ => [(m, recs)]
  end.

(** The records of the file [f]: those of its tree when it is read and
    parsed, none otherwise. *)
Definition functions_of (f : file) : list FunctionRecord :=
  match f with
  | Content text =>
      match ast_parse text with
      | inr body => file_functions body
      | inl _ => []
      end
  | _ => []
  end.

(** The module mapping [process_file] returns for the file [f] at [path]. *)
Definition extract (path : string) (f : file) : ModuleMap :=
  group (module_name_of path) (functions_of f).

Definition error_line (path : string) (e : exn) : string :=
  "Error parsing " +++ path +++ ": " +++ exn_str e.

(** The diagnostics [process_file] prints for the file [f] at [path]. *)
Definition diag (path : string) (f : file) : list string :=
  match f with
  | OpenFails _ => []
  | ReadFails e => [error_line path e]
  | Content text =>
      match ast_parse text with
      | inl e => [error_line path e]
      | inr _ => []
      end
  end.

Definition diags (l : list (string * file)) : list string :=
  flat_map (fun pf => diag (fst pf) (snd pf)) l.

(** The files [scan_project] passes to [process_file], with their joined
    paths, in the order of the walk. *)
Definition eligible_in (dirpath : string) (filenames : list (string * file))
  : list (string * file) :=
  flat_map (fun nf => if eligible __file__ (fst nf)
                      then [(os_path.join dirpath (fst nf), snd nf)] else [])
           filenames.

Definition eligible_files (root_dir : string) (tree : dir)
  : list (string * file) :=
  flat_map (fun entry => eligible_in (fst (fst entry)) (snd entry))
           (os_walk root_dir tree).

(** The files on which [open] is called: all up to and including the first
    one that cannot be opened. *)
Fixpoint attempted (l : list (string * file)) : list (string * file) :=
  match l with
  | [] => []
  | (p, OpenFails e) :: _ => [(p, OpenFails e)]
  | pf :: r => pf :: attempted r
  end.

(** The exception that ends the scan, if any. *)
Fixpoint outcome (l : list (string * file)) : option exn :=
  match l with
  | [] => None
  | (_, OpenFails e) :: _ => Some e
  | _ :: r => outcome r
  end.


(** The accumulation of [project_data] over the files [l]. *)
Fixpoint collect (l : list (string * file)) (pd : ProjectData) : ProjectData :=
  match l with
  | [] => pd
  | (p, f) :: r =>
      collect r (if truthy (extract p f)
                 then dict.set pd p {| modules := extract p f |}
                 else pd)
  end.

(** The entry a file contributes: one when it has a function, else none. *)
Definition entry_of (pf : string * file) : list (string * FileRecord) :=
  if truthy (extract (fst pf) (snd pf))
  then [(fst pf, {| modules := extract (fst pf) (snd pf) |})]
  else [].

Definition entries (l : list (string * file)) : ProjectData :=
  flat_map entry_of l.

(** One step of the scan: [process_file] and the update of
    [project_data]. *)
Definition scan_step (project_data : ProjectData) (pf : string * file)
  : M ProjectData :=
  (data <- process_file ast_parse cleandoc (fst pf) (snd pf) ;;
   if truthy (modules data)
   then ret (dict.set project_data (fst pf) data)
   else ret project_data)%py.

End Results.

(* ================================================================== *)
(** ** Directory trees *)

(** Induction on a directory tree, with the hypothesis for every
    subdirectory. *)
Fixpoint dir_ind' (P : dir -> Prop)
    (step : forall subdirs files,
        Forall (fun nd => P (snd nd)) subdirs -> P (Dir subdirs files))
    (d : dir) : P d :=
  match d with
  | Dir subdirs files =>
      step subdirs files
        ((fix all (l : list (string * dir)) : Forall (fun nd => P (snd nd)) l :=
            match l with
            | [] => Forall_nil _
            | nd :: r => Forall_cons nd (dir_ind' P step (snd nd)) (all r)
            end) subdirs)
  end.

(** Every file the walk lists: (dirpath, filename, file). *)
Definition all_files (top : string) (d : dir) : list (string * string * file) :=
  flat_map (fun entry => map (fun nf => (fst (fst entry), fst nf, snd nf)) (snd entry))
           (os_walk top d).

Definition path_of (x : string * string * file) : string :=
  os_path.join (fst (fst x)) (snd (fst x)).

(** [file_at top d dirpath filename f]: in the directory [d], whose path is
    [top], the file [f] is the entry [filename] of the directory whose
    path is [dirpath], [d] itself or a subdirectory at any depth. *)
Inductive file_at : string -> dir -> string -> string -> file -> Prop :=
| file_here top subdirs files filename f :
    In (filename, f) files ->
    file_at top (Dir subdirs files) top filename f
| file_below top subdirs files s d dirpath filename f :
    In (s, d) subdirs ->
    file_at (os_path.join top s) d dirpath filename f ->
    file_at top (Dir subdirs files) dirpath filename f.

(** A name of a directory entry: not empty, without a separator. *)
Definition wf_name (n : string) : bool :=
  negb (PyStr.is_empty n) && negb (PyStr.contains_char os_path.sep n).

Fixpoint distinct (l : list string) : bool :=
  match l with
  | [] => true
  | x :: r => negb (existsb (String.eqb x) r) && distinct r
  end.

(** A directory tree as a file system holds it: entries have proper names,
    and no two subdirectories and no two files of a directory share
    one. *)
Fixpoint wf_dir (d : dir) : bool :=
  match d with
  | Dir subdirs files =>
      forallb wf_name (map fst subdirs) && forallb wf_name (map fst files)
      && distinct (map fst subdirs) && distinct (map fst files)
      && forallb (fun nd => wf_dir (snd nd)) subdirs
  end.

(** What [os.path.join] puts before a proper name. *)
Definition dir_prefix (top : string) : string :=
  if PyStr.is_empty top || PyStr.endswith top "/" then top else top +++ "/".

Fixpoint last_char (s : string) : option ascii :=
  match s with
  | EmptyString => None
  | String c EmptyString => Some c
  | String _ r => last_char r
  end.

(* ================================================================== *)
(** ** The text report, stated on lists *)

(** The five lines of a function block. *)
Definition function_lines (func : FunctionRecord) : list string :=
  [ nl +++ "Function: " +++ name func;
    "Inputs: " +++ arg_names func;
    "Returns: " +++ returns_or_None func;
    "Description: " +++ docstring func;
    dashes ].

(** A module header and the blocks of its functions, in their order. *)
Definition module_lines (m : string * list FunctionRecord) : list string :=
  (nl +++ "Module: " +++ fst m +++ nl +++ equals)
    :: flat_map function_lines (snd m).

(** A file header and its modules, in their order. *)
Definition file_lines (entry : string * FileRecord) : list string :=
  (nl +++ "File: " +++ fst entry +++ nl +++ dashes)
    :: flat_map module_lines (modules (snd entry)).

(** The content of [project_documentation.txt]: files, then modules, then
    functions, each level in the order of its mapping or list. *)
Definition render_text (data : ProjectData) : string :=
  PyStr.join nl (flat_map file_lines data).

Definition txt_name : string := "project_documentation.txt".
Definition txt_done : string :=
  "Text document generated: project_documentation.txt".

(** The base name without the suffix [suffix] at its end, as the
    specification words the module name ([str.removesuffix]). *)
Fixpoint removesuffix (s suffix : string) : string :=
  if String.eqb s suffix then ""
  else match s with
       | EmptyString => ""
       | String c r => String c (removesuffix r suffix)
       end.

(** [isinstance(node, ast.FunctionDef)] *)
Definition is_FunctionDef (n : ast.node) : bool :=
  match n with
  | ast.NStmt (ast.FunctionDef _ _ _ _ _) => true
  | _ => false
  end.

(** [sub in s] *)
Fixpoint has_substring (sub s : string) : bool :=
  String.prefix sub s
  || match s with
     | EmptyString => false
     | String _ r => has_substring sub r
     end.

(** The world after [prints] were printed and [opens] were opened. *)
Definition log (w : world) (prints opens : list string) : world :=
  mk_world (console w ++ prints) (opened w ++ opens) (cwd w) (cwd_writable w).

(* ================================================================== *)
(** ** The structured document, stated on lists *)

(** The heading and the three paragraphs of a function. *)
Definition function_items (func : FunctionRecord) : list doc_item :=
  [ Heading (name func) 3;
    Paragraph ("Arguments: " +++ arg_names func);
    Paragraph ("Returns: " +++ returns_or_None func);
    Paragraph ("Description: " +++ docstring func) ].

Definition module_items (m : string * list FunctionRecord) : list doc_item :=
  Heading ("Module: " +++ fst m) 2 :: flat_map function_items (snd m).

Definition file_items (entry : string * FileRecord) : list doc_item :=
  Heading ("File: " +++ fst entry) 1
    :: flat_map module_items (modules (snd entry)).

(** The blocks of [project_documentation.docx]. *)
Definition render_docx (data : ProjectData) : document :=
  Heading "Project Documentation" 0 :: flat_map file_items data.

Definition docx_name : string := "project_documentation.docx".
Definition docx_done : string :=
  "Word document generated: project_documentation.docx".

(** The artifact a run of the renderer produces and the line it prints. *)
Definition report_artifact (Document : bool) (data : ProjectData)
    (output_format : string) : string * artifact * string :=
  if String.eqb output_format "docx" && Document
  then (docx_name, DocxFile (render_docx data), docx_done)
  else (txt_name, TextFile (render_text data), txt_done).



(** The exception that makes [process_file] print a diagnostic for the
    file [f], if any. *)
Definition failure (ast_parse : string -> exn + list ast.stmt) (f : file)
  : option exn :=
  match f with
  | OpenFails _ => None
  | ReadFails e => Some e
  | Content text =>
      match ast_parse text with
      | inl e => Some e
      | inr _ => None
      end
  end.

(** The nodes below the top-level statements of a module. *)
Definition nested_nodes (body : list ast.stmt) : list ast.node :=
  flat_map ast.descendants
    (flat_map ast.iter_child_nodes (map ast.NStmt body)).

(** A character that [repr] shows as it is between single quotes: a
    printable ASCII character (codes 32 to 126) other than the single
    quote and the backslash. *)
Definition plain_char (c : ascii) : bool :=
  let n := nat_of_ascii c in
  negb (Ascii.eqb c PyStr.squote) && negb (Ascii.eqb c "\"%char)
  && Nat.leb 32 n && Nat.ltb n 127.

Fixpoint plain (s : string) : bool :=
  match s with
  | EmptyString => true
  | String c r => plain_char c && plain r
  end.

(* ================================================================== *)
(** ** The program with the exceptions of the libraries

    [ast.unparse] is recursive: on an expression nested deeper than the
    interpreter's stack allows (an annotation that is a chain of some
    hundreds of attribute accesses, which [ast.parse] accepts) it raises
    [RecursionError].  The document library raises [ValueError] for a
    text that XML cannot hold (a control character in a docstring), and
    writing the text report raises [UnicodeEncodeError] for a text that
    UTF-8 cannot encode (a lone surrogate), after [open] has emptied the
    file.  The definitions above are the program where none of this
    happens.  Those of module [full] take these exceptions as parameters:
    they follow the [try] block of [process_file] through an exception
    raised inside its loop, when [result] may already have been updated,
    and the renderer through an exception of the document library or of
    the encoder. *)

(** The text of a block. *)
Definition item_text (item : doc_item) : string :=
  match item with
  | Heading text _ => text
  | Paragraph text => text
  end.

(** [scan_project(root_dir)] over a given [process_file]. *)
Definition scan_with (process : string -> file -> M FileRecord)
    (__file__ root_dir : string) (tree : dir) : M ProjectData :=
  for_each (os_walk root_dir tree)
    (fun project_data entry =>
       let '(dirpath, _, filenames) := entry in
       for_each filenames
         (fun project_data nf =>
            let '(filename, f) := nf in
            if eligible __file__ filename then
              let full_path := os_path.join dirpath filename in
              (data <- process full_path f ;;
               if truthy (modules data)
               then ret (dict.set project_data full_path data)
               else ret project_data)%py
            else ret project_data)
         project_data)
    [].

(** [d.setdefault(k, [])] *)
Definition setdefault {V} (d : list (string * list V)) (k : string)
  : list (string * list V) :=
  match dict.get d k with
  | Some _ => d
  | None => dict.set d k []
  end.

Module full.
Section Program.

Variable ast_parse : string -> exn + list ast.stmt.
Variable cleandoc : string -> string.
(** The exception [ast.unparse] raises on an expression, [None] where it
    returns. *)
Variable unparse_error : ast.expr -> option exn.
Variable __file__ : string.
Variable abspath : string -> string.
(** Whether the import of the document library succeeded. *)
Variable Document : bool.
(** The exception the document library raises for a text it does not
    accept, [None] where it accepts it. *)
Variable refused : string -> option exn.
(** The exception of encoding a text as UTF-8, [None] where it encodes. *)
Variable encode_error : string -> option exn.

(** The expressions [analyze_function] unparses, in the order it does:
    the annotations of the positional parameters, then the return
    annotation. *)
Definition unparsed (a : ast.arguments) (ret : option ast.expr)
  : list ast.expr :=
  flat_map (fun p => ast.opt_list (ast.annotation p)) (ast.args a)
    ++ ast.opt_list ret.

Fixpoint first_error (es : list ast.expr) : option exn :=
  match es with
  | [] => None
  | e :: r =>
      match unparse_error e with
      | Some x => Some x
      | None => first_error r
      end
  end.

(** The exception [analyze_function] ends with on this node, if any. *)
Definition analyze_error (a : ast.arguments) (ret : option ast.expr)
  : option exn :=
  first_error (unparsed a ret).

(** [analyze_function(node)]: the exception of the first [ast.unparse]
    that raises, else the record. *)
Definition analyze_function (fname : string) (a : ast.arguments)
    (body : list ast.stmt) (ret : option ast.expr) : exn + FunctionRecord :=
  match analyze_error a ret with
  | Some e => inl e
  | None => inr (analyze_function cleandoc fname a body ret)
  end.

(** The loop over [ast.walk(tree)] from the state [result]: what [result]
    holds when the loop ends, and the exception that ended it, if one did.
    For a [FunctionDef] node, [setdefault] has put the module name in
    [result] before [analyze_function] is called. *)
Fixpoint visit_all (file_path : string) (nodes : list ast.node)
    (result : ModuleMap) : ModuleMap * option exn :=
  match nodes with
  | [] => (result, None)
  | n :: rest =>
      match n with
      | ast.NStmt (ast.FunctionDef fname a body _ ret) =>
          let module_name := module_name_of file_path in
          let result := setdefault result module_name in
          match analyze_function fname a body ret with
          | inl e => (result, Some e)
          | inr func =>
              visit_all file_path rest
                (setdefault_append result module_name func)
          end
      | _ => visit_all file_path rest result
      end
  end.

(** [process_file(file_path)], with [f] the file that [open] reaches at
    [file_path].  The [try] block gives what [result] holds at its end and
    the exception that ended it ([result] is still empty when [f.read()]
    or [ast.parse] raises); the handler prints, and [result] is
    returned. *)
Definition process_file (file_path : string) (f : file) : M FileRecord :=
  (fh <- open_r file_path f ;;
   st <- try_except
           (text <- read fh ;;
            tree <- parse ast_parse text ;;
            ret (visit_all file_path (ast.walk (ast.NModule tree)) []))
           (fun e => ret ([], Some e)) ;;
   match snd st with
   | Some e =>
       print ("Error parsing " +++ file_path +++ ": " +++ exn_str e) ;;;
       ret {| modules := fst st |}
   | None => ret {| modules := fst st |}
   end)%py.

(** [scan_project(root_dir)] *)
Definition scan_project (root_dir : string) (tree : dir) : M ProjectData :=
  scan_with process_file __file__ root_dir tree.

(** *** What a run computes *)

(** The exception that ends the loop over [nodes], if any. *)
Fixpoint walk_error (nodes : list ast.node) : option exn :=
  match nodes with
  | [] => None
  | ast.NStmt (ast.FunctionDef _ a _ _ ret) :: rest =>
      match analyze_error a ret with
      | Some e => Some e
      | None => walk_error rest
      end
  | _ :: rest => walk_error rest
  end.

(** The nodes the loop gets through before that exception. *)
Fixpoint before_error (nodes : list ast.node) : list ast.node :=
  match nodes with
  | [] => []
  | ast.NStmt (ast.FunctionDef fname a body decos ret) :: rest =>
      match analyze_error a ret with
      | Some _ => []
      | None =>
          ast.NStmt (ast.FunctionDef fname a body decos ret)
            :: before_error rest
      end
  | n :: rest => n :: before_error rest
  end.

(** The module mapping and the exception of the [try] block for the file
    [f] at [path]. *)
Definition state (path : string) (f : file) : ModuleMap * option exn :=
  match f with
  | OpenFails _ => ([], None)
  | ReadFails e => ([], Some e)
  | Content text =>
      match ast_parse text with
      | inl e => ([], Some e)
      | inr body => visit_all path (ast.walk (ast.NModule body)) []
      end
  end.

Definition extract (path : string) (f : file) : ModuleMap :=
  fst (state path f).

Definition diag (path : string) (f : file) : list string :=
  match snd (state path f) with
  | Some e => ["Error parsing " +++ path +++ ": " +++ exn_str e]
  | None => []
  end.

(** The exception that makes [process_file] print a diagnostic for the
    file [f], if any: raised by [f.read()], by [ast.parse] or in the
    loop. *)
Definition failure (f : file) : option exn :=
  match f with
  | OpenFails _ => None
  | ReadFails e => Some e
  | Content text =>
      match ast_parse text with
      | inl e => Some e
      | inr body => walk_error (ast.walk (ast.NModule body))
      end
  end.

(** The exception raised in the loop for the file [f], if any. *)
Definition extraction_error (f : file) : option exn :=
  match f with
  | Content text =>
      match ast_parse text with
      | inr body => walk_error (ast.walk (ast.NModule body))
      | inl _ => None
      end
  | _ => None
  end.

(** *** The renderer *)

(** [doc.add_heading(..)] and [doc.add_paragraph(..)]: the name [doc] is
    looked up first, then the library takes the text or raises. *)
Definition doc_add (loc : locals) (item : doc_item) : M locals :=
  match doc loc with
  | Some d =>
      match refused (item_text item) with
      | Some e => raise e
      | None => ret (mk_locals (Some (d ++ [item])) (lines loc))
      end
  | None => raise (unbound "doc")
  end.

(** [with open(fname, 'w', encoding='utf-8') as f: f.write(content)]:
    [open] creates or empties the file; when the encoder raises, the file
    is left empty. *)
Definition write_text (fname content : string) : M unit :=
  fun w =>
    if cwd_writable w
    then match encode_error content with
         | Some e =>
             (inl e, mk_world (console w) (opened w)
                       (dict.set (cwd w) fname (TextFile ""))
                       (cwd_writable w))
         | None =>
             (inr tt, mk_world (console w) (opened w)
                        (dict.set (cwd w) fname (TextFile content))
                        (cwd_writable w))
         end
    else (inl (mk_exn "PermissionError"
                 ("[Errno 13] Permission denied: " +++ PyStr.repr fname)), w).

Definition report_function (docx : bool) (loc : locals) (func : FunctionRecord)
  : M locals :=
  (if docx then
     loc <- doc_add loc (Heading (name func) 3) ;;
     loc <- doc_add loc (Paragraph ("Arguments: " +++ arg_names func)) ;;
     loc <- doc_add loc (Paragraph ("Returns: " +++ returns_or_None func)) ;;
     doc_add loc (Paragraph ("Description: " +++ docstring func))
   else
     loc <- lines_append loc (nl +++ "Function: " +++ name func) ;;
     loc <- lines_append loc ("Inputs: " +++ arg_names func) ;;
     loc <- lines_append loc ("Returns: " +++ returns_or_None func) ;;
     loc <- lines_append loc ("Description: " +++ docstring func) ;;
     lines_append loc dashes)%py.

Definition report_module (docx : bool) (loc : locals)
    (m : string * list FunctionRecord) : M locals :=
  let '(module, functions) := m in
  (loc <- (if docx then doc_add loc (Heading ("Module: " +++ module) 2)
           else lines_append loc
                  (nl +++ "Module: " +++ module +++ nl +++ equals)) ;;
   for_each functions (report_function docx) loc)%py.

Definition report_file (docx : bool) (loc : locals)
    (entry : string * FileRecord) : M locals :=
  let '(file_path, mods) := entry in
  (loc <- (if docx then doc_add loc (Heading ("File: " +++ file_path) 1)
           else lines_append loc
                  (nl +++ "File: " +++ file_path +++ nl +++ dashes)) ;;
   for_each (modules mods) (report_module docx) loc)%py.

(** [generate_report(data, output_format)] *)
Definition generate_report (data : ProjectData) (output_format : string)
  : M unit :=
  let docx := String.eqb output_format "docx" in
  let loc0 := if docx && Document
              then mk_locals (Some [Heading "Project Documentation" 0]) None
              else mk_locals None (Some []) in
  (loc <- for_each data (report_file docx) loc0 ;;
   if docx && Document then
     match doc loc with
     | Some d =>
         write_file "project_documentation.docx" (DocxFile d) ;;;
         print "Word document generated: project_documentation.docx"
     | None => raise (unbound "doc")
     end
   else
     match lines loc with
     | Some l =>
         write_text "project_documentation.txt" (PyStr.join nl l) ;;;
         print "Text document generated: project_documentation.txt"
     | None => raise (unbound "lines")
     end)%py.

(** The [__main__] block, with [tree] the directory at the project root. *)
Definition main (tree : dir) : M unit :=
  let project_root := os_path.dirname (abspath __file__) in
  (project_data <- scan_project project_root tree ;;
   if Document then generate_report project_data "docx"
   else
     generate_report project_data "txt" ;;;
     print "Install python-docx for Word document support")%py.

(** The first exception of the document library over the blocks
    [items], if any. *)
Fixpoint first_refused (items : list doc_item) : option exn :=
  match items with
  | [] => None
  | item :: r =>
      match refused (item_text item) with
      | Some e => Some e
      | None => first_refused r
      end
  end.

End Program.
End full.

(** The accumulation of [project_data] over the files [l], for a given
    module mapping of each file. *)
Fixpoint collect_with (extract : string -> file -> ModuleMap)
    (l : list (string * file)) (pd : ProjectData) : ProjectData :=
  match l with
  | [] => pd
  | (p, f) :: r =>
      collect_with extract r
        (if truthy (extract p f)
         then dict.set pd p {| modules := extract p f |}
         else pd)
  end.

(* ================================================================== *)
(** ** Sample inputs

    A small runtime and project tree on which the statements below are
    evaluated. *)

Module sample.
Import ast.

Definition syntax_error : exn :=
  mk_exn "SyntaxError" "invalid syntax (<unknown>, line 1)".
Definition decode_error : exn :=
  mk_exn "UnicodeDecodeError"
    "'utf-8' codec can't decode byte 0xff in position 0: invalid start byte".
Definition permission_denied : exn :=
  mk_exn "PermissionError" "[Errno 13] Permission denied: '/proj/locked.py'".

Definition no_arguments : arguments := mk_arguments [] [] None [] [] None [].
Definition positional (l : list ast_arg) : arguments :=
  mk_arguments [] l None [] [] None [].

(** [def foo(x: int) -> bool: 'desc'] *)
Definition src_foo : string := "def foo(x: int) -> bool: 'desc'".
Definition def_foo : stmt :=
  FunctionDef "foo" (positional [mk_arg "x" (Some (Name "int"))])
    [Expr (Constant (CStr "desc") false)] [] (Some (Name "bool")).

(** A method, a function nested in it, a coroutine and a function under
    an [if]. *)
Definition src_nested : string :=
  "class C:" +++ nl +++
  "    def m(self, k: t.List[int]):" +++ nl +++
  "        def inner(): pass" +++ nl +++
  "        return inner" +++ nl +++
  "async def fetch(url): pass" +++ nl +++
  "if flag:" +++ nl +++
  "    def late(): pass".
Definition def_inner : stmt := FunctionDef "inner" no_arguments [Pass] [] None.
Definition def_m : stmt :=
  FunctionDef "m"
    (positional [mk_arg "self" None;
                 mk_arg "k" (Some (Subscript (Attribute (Name "t") "List")
                                             (Name "int")))])
    [def_inner; Return (Some (Name "inner"))] [] None.
Definition def_fetch : stmt :=
  AsyncFunctionDef "fetch" (positional [mk_arg "url" None]) [Pass] [] None.
Definition def_late : stmt := FunctionDef "late" no_arguments [Pass] [] None.
Definition mod_nested : list stmt :=
  [ClassDef "C" [] [def_m] []; def_fetch; If (Name "flag") [def_late] []].

Definition src_pass : string := "pass".
Definition src_bad : string := "def broken(:".

Definition ast_parse (text : string) : exn + list stmt :=
  if String.eqb text src_foo then inr [def_foo]
  else if String.eqb text src_nested then inr mod_nested
  else if String.eqb text src_pass then inr [Pass]
  else inl syntax_error.

Definition cleandoc (doc : string) : string := doc.

Definition abspath (p : string) : string :=
  if PyStr.startswith p "/" then p else "/proj/" +++ p.

Definition script : string := "main.py".

(** /proj: a.py, b.py, broken.py, blob.py (not UTF-8), main.py, notes.txt
    and pkg/ with utils.py and main.py. *)
Definition pkg : dir :=
  Dir [] [("utils.py", Content src_nested); ("main.py", Content src_foo)].
Definition proj : dir :=
  Dir [("pkg", pkg)]
      [("a.py", Content src_foo); ("b.py", Content src_pass);
       ("broken.py", Content src_bad); ("blob.py", ReadFails decode_error);
       ("main.py", Content src_foo); ("notes.txt", Content "to do")].

(** /proj with a file that cannot be opened before a.py. *)
Definition proj_locked : dir :=
  Dir [] [("locked.py", OpenFails permission_denied);
          ("a.py", Content src_foo)].

Definition w0 : world := mk_world [] [] [] true.

Definition rec_foo : FunctionRecord :=
  mk_function "foo" [mk_arg_info "x" (Some "int")] (Some "bool") "desc".

Definition data_foo : ProjectData :=
  [("/proj/a.py", {| modules := [("a", [rec_foo])] |})].

End sample.

(** *** A runtime whose [ast.unparse] gives up beyond 350 levels *)

Module deep.
Import ast.

Definition recursion_error : exn :=
  mk_exn "RecursionError" "maximum recursion depth exceeded".

Fixpoint expr_depth (e : expr) : nat :=
  match e with
  | Name _ => 1
  | Attribute v _ => S (expr_depth v)
  | Subscript v sl => S (Nat.max (expr_depth v) (expr_depth sl))
  | Constant _ _ => 1
  | OtherExpr _ fields => S (list_max (map expr_depth fields))
  end.

Definition unparse_error (e : expr) : option exn :=
  if Nat.ltb 350 (expr_depth e) then Some recursion_error else None.

(** [a.b.b. ... .b] with [n] attribute accesses, and its text. *)
Fixpoint chain (n : nat) : expr :=
  match n with
  | O => Name "a"
  | S k => Attribute (chain k) "b"
  end.

Fixpoint chain_text (n : nat) : string :=
  match n with
  | O => "a"
  | S k => chain_text k +++ ".b"
  end.

Definition def_f : stmt :=
  FunctionDef "f" (sample.positional [mk_arg "x" (Some (chain 400))])
    [Pass] [] None.
Definition def_g : stmt := FunctionDef "g" sample.no_arguments [Pass] [] None.
Definition def_h : stmt := FunctionDef "h" sample.no_arguments [Pass] [] None.
Definition def_each : stmt :=
  FunctionDef "each" sample.no_arguments [Pass] [] None.

Definition src_f : string := "def f(x: " +++ chain_text 400 +++ "): pass".
(** [f], whose annotation is 400 levels deep, alone in a file. *)
Definition src_first : string := src_f.
(** The same [f] between [g] and [h]. *)
Definition src_middle : string :=
  "def g(): pass" +++ nl +++ src_f +++ nl +++ "def h(): pass".
Definition src_async : string := "async def fetch(url): pass".
(** A function defined in the body of a [for] loop. *)
Definition src_loop : string :=
  "for i in items:" +++ nl +++ "    def each(): pass".
Definition mod_loop : list stmt :=
  [Other [ChildNode [ChildNode []]; ChildExpr (Name "items");
          ChildStmt def_each]].

(** A function with a decorator that is a call, an annotation that is
    an operation and a default value that is a number. *)
Definition src_web : string :=
  "@app.route(1)" +++ nl +++ "def index(n: int | None = 1): pass".
Definition def_index : stmt :=
  FunctionDef "index"
    (mk_arguments []
       [mk_arg "n"
          (Some (OtherExpr "int | None"
                   [Name "int"; OtherExpr "" []; Constant CNone false]))]
       None [] [] None [OtherExpr "1" []])
    [Pass]
    [OtherExpr "app.route(1)"
       [Attribute (Name "app") "route"; OtherExpr "1" []; OtherExpr "" []]]
    None.

Definition ast_parse (text : string) : exn + list stmt :=
  if String.eqb text src_first then inr [def_f]
  else if String.eqb text src_middle then inr [def_g; def_f; def_h]
  else if String.eqb text src_async then inr [sample.def_fetch]
  else if String.eqb text src_loop then inr mod_loop
  else if String.eqb text src_web then inr [def_index]
  else sample.ast_parse text.

(** /proj with deep.py and a.py. *)
Definition proj : dir :=
  Dir [] [("deep.py", Content src_first); ("a.py", Content sample.src_foo)].

(** /proj with a file that does not parse, one in whose loop
    [ast.unparse] raises, and a.py. *)
Definition proj_mixed : dir :=
  Dir [] [("broken.py", Content sample.src_bad);
          ("deep.py", Content src_middle);
          ("a.py", Content sample.src_foo)].

(** A document library that refuses the control characters below 32
    other than tab, newline and carriage return, and an encoder that
    refuses the surrogate U+DC80, held as the bytes ED B2 80. *)
Definition xml_char (c : ascii) : bool :=
  let n := nat_of_ascii c in
  Nat.leb 32 n || Nat.eqb n 9 || Nat.eqb n 10 || Nat.eqb n 13.

Fixpoint xml_text (s : string) : bool :=
  match s with
  | EmptyString => true
  | String c r => xml_char c && xml_text r
  end.

Definition refused (text : string) : option exn :=
  if xml_text text then None
  else Some (mk_exn "ValueError"
               ("All strings must be XML compatible: Unicode or ASCII, "
                  +++ "no NULL bytes or control characters")).

Definition surrogate : string :=
  String (ascii_of_nat 237)
    (String (ascii_of_nat 178) (String (ascii_of_nat 128) "")).

Definition encode_error (text : string) : option exn :=
  if has_substring surrogate text
  then Some (mk_exn "UnicodeEncodeError" "surrogates not allowed")
  else None.

(** A function whose docstring holds the control character 1, and one
    whose docstring holds the surrogate. *)
Definition data_ctrl : ProjectData :=
  [("/proj/c.py",
    {| modules := [("c", [mk_function "f" [] None
                            (String (ascii_of_nat 1) "")])] |})].

Definition data_surrogate : ProjectData :=
  [("/proj/s.py",
    {| modules := [("s", [mk_function "f" [] None surrogate])] |})].

End deep.

(* ================================================================== *)
(** * Properties *)

(** ** [ast.walk] visits every node of the tree once *)

Module ast_facts.
Import ast.

Lemma descendants_stmts (l : list stmt) :
  flat_map descendants (map NStmt l) = flat_map stmt_nodes l.
Proof. induction l as [|s l IH]; simpl; [reflexivity | now rewrite IH]. Qed.

Lemma descendants_exprs (l : list expr) :
  flat_map descendants (map NExpr l) = flat_map expr_nodes l.
Proof. induction l as [|e l IH]; simpl; [reflexivity | now rewrite IH]. Qed.

Lemma descendants_args (l : list ast_arg) :
  flat_map descendants (map NArg l) = flat_map arg_nodes l.
Proof. induction l as [|a l IH]; simpl; [reflexivity | now rewrite IH]. Qed.

Lemma descendants_children (l : list child) :
  flat_map descendants (map child_node l) = flat_map child_nodes l.
Proof.
  induction l as [|c l IH]; [reflexivity|].
  cbn [map flat_map]. rewrite IH. f_equal. destruct c; reflexivity.
Qed.

(** The nodes of a subtree are its root and the nodes under its children,
    in the order of the children. *)
Lemma descendants_unfold (n : node) :
  descendants n = n :: flat_map descendants (iter_child_nodes n).
Proof.
  destruct n as [body | s | e | a | a | | fields].
  - simpl. now rewrite descendants_stmts.
  - destruct s; simpl;
      rewrite ?flat_map_app, ?descendants_stmts, ?descendants_exprs,
        ?descendants_children, ?app_nil_r;
      reflexivity.
  - destruct e; simpl; rewrite ?descendants_exprs, ?app_nil_r; reflexivity.
  - unfold descendants, arguments_nodes, iter_child_nodes.
    rewrite !flat_map_app, !descendants_args, !descendants_exprs. reflexivity.
  - simpl. unfold arg_nodes. now rewrite descendants_exprs.
  - reflexivity.
  - simpl. now rewrite descendants_children.
Qed.

Lemma descendants_not_nil (n : node) : descendants n <> [].
Proof. rewrite descendants_unfold. discriminate. Qed.

Lemma flat_map_descendants_nil (q : list node) :
  flat_map descendants q = [] -> q = [].
Proof.
  destruct q as [|n q]; [reflexivity|]. simpl. intros H.
  apply app_eq_nil in H. destruct H as [H _].
  now apply descendants_not_nil in H.
Qed.

(** With at least as many iterations as the deque's subtrees have nodes,
    the loop yields each of those nodes once. *)
Lemma walk_loop_enough (fuel : nat) :
  forall todo,
    List.length (flat_map descendants todo) <= fuel ->
    Permutation (walk_loop fuel todo) (flat_map descendants todo).
Proof.
  induction fuel as [|k IH]; intros todo Hlen.
  - assert (flat_map descendants todo = []) as E
        by (destruct (flat_map descendants todo); [reflexivity | simpl in Hlen; lia]).
    rewrite E. apply flat_map_descendants_nil in E. subst. constructor.
  - destruct todo as [|n rest]; [constructor|].
    cbn [walk_loop flat_map].
    rewrite descendants_unfold. cbn [app].
    constructor.
    etransitivity.
    + apply IH. cbn [flat_map] in Hlen.
      rewrite descendants_unfold in Hlen. cbn [app List.length] in Hlen.
      rewrite flat_map_app, length_app. rewrite length_app in Hlen. lia.
    + rewrite flat_map_app. apply Permutation_app_comm.
Qed.

(** More iterations change nothing: the deque is empty by then. *)
Lemma walk_loop_more (fuel : nat) :
  forall todo extra,
    List.length (flat_map descendants todo) <= fuel ->
    walk_loop (fuel + extra) todo = walk_loop fuel todo.
Proof.
  induction fuel as [|k IH]; intros todo extra Hlen.
  - assert (todo = []) as ->.
    { apply flat_map_descendants_nil.
      destruct (flat_map descendants todo); [reflexivity | simpl in Hlen; lia]. }
    destruct extra; reflexivity.
  - destruct todo as [|n rest]; [reflexivity|].
    cbn [walk_loop Nat.add]. f_equal. apply IH.
    cbn [flat_map] in Hlen. rewrite descendants_unfold in Hlen.
    cbn [app List.length] in Hlen.
    rewrite flat_map_app, length_app. rewrite length_app in Hlen. lia.
Qed.

(** [ast.walk] yields exactly the nodes of the tree, each once. *)
Lemma walk_complete (n : node) : Permutation (walk n) (descendants n).
Proof.
  unfold walk.
  replace (descendants n) with (flat_map descendants [n]) at 2
    by (simpl; apply app_nil_r).
  apply walk_loop_enough. simpl. rewrite app_nil_r. lia.
Qed.

End ast_facts.

(** ** The monad and the log *)

Lemma log_nil (w : world) : log w [] [] = w.
Proof. destruct w. unfold log. simpl. now rewrite !app_nil_r. Qed.

Lemma log_log (w : world) (a b c d : list string) :
  log (log w a b) c d = log w (a ++ c) (b ++ d).
Proof. unfold log. simpl. now rewrite !app_assoc. Qed.

Lemma for_each_app {A S} (body : S -> A -> M S) (l1 l2 : list A) :
  forall acc w,
    for_each (l1 ++ l2) body acc w
    = bind (for_each l1 body acc) (for_each l2 body) w.
Proof.
  induction l1 as [|x l1 IH]; intros acc w; [reflexivity|].
  simpl. unfold bind in *.
  destruct (body acc x w) as [[e|acc'] w']; [reflexivity|].
  apply IH.
Qed.

(** A loop over the items of an outer loop is a loop over all the items. *)
Lemma for_each_flat_map {X Y S} (g : X -> list Y) (body : S -> Y -> M S)
    (outer : list X) :
  forall acc w,
    for_each outer (fun acc x => for_each (g x) body acc) acc w
    = for_each (flat_map g outer) body acc w.
Proof.
  induction outer as [|x outer IH]; intros acc w; [reflexivity|].
  cbn [for_each flat_map]. rewrite for_each_app. unfold bind.
  destruct (for_each (g x) body acc w) as [[e|acc'] w']; [reflexivity|].
  apply IH.
Qed.

(** ** [process_file] *)

Section ProcessFile.

Variable ast_parse : string -> exn + list ast.stmt.
Variable cleandoc : string -> string.

Lemma setdefault_append_group (m : string) (l : list FunctionRecord)
    (x : FunctionRecord) :
  setdefault_append (group m l) m x = group m (l ++ [x]).
Proof.
  unfold setdefault_append. destruct l as [|y l]; cbn [group dict.get].
  - reflexivity.
  - rewrite String.eqb_refl. cbn [dict.set]. rewrite String.eqb_refl.
    reflexivity.
Qed.

(** The loop of [process_file] puts every record under the one module
    name, in the order of the nodes. *)
Lemma fold_visit (path : string) (ns : list ast.node) :
  forall l,
    fold_left (visit cleandoc path) ns (group (module_name_of path) l)
    = group (module_name_of path) (l ++ records_of cleandoc ns).
Proof.
  induction ns as [|n ns IH]; intros l.
  - simpl. now rewrite app_nil_r.
  - cbn [fold_left records_of flat_map].
    assert (visit cleandoc path (group (module_name_of path) l) n
            = group (module_name_of path) (l ++ record_of cleandoc n)) as ->.
    { destruct n as [ | s | | | | | ]; try (simpl; now rewrite app_nil_r).
      destruct s; try (simpl; now rewrite app_nil_r).
      cbn [visit record_of]. apply setdefault_append_group. }
    rewrite IH. now rewrite <- app_assoc.
Qed.

(** What [process_file] returns and does, for each kind of file. *)
Lemma process_file_run (path : string) (f : file) (w : world) :
  process_file ast_parse cleandoc path f w
  = (match f with
     | OpenFails e => inl e
     | _ => inr {| modules := extract ast_parse cleandoc path f |}
     end,
     log w (diag ast_parse path f) [path]).
Proof.
  unfold process_file, bind, try_except, open_r, read, parse, print, ret,
    raise, log, extract, functions_of.
  destruct f as [e | e | text]; simpl.
  - now rewrite app_nil_r.
  - reflexivity.
  - destruct (ast_parse text) as [e | body]; simpl.
    + reflexivity.
    + rewrite app_nil_r. do 3 f_equal.
      apply (fold_visit path (ast.walk (ast.NModule body)) []).
Qed.

End ProcessFile.

(** ** [scan_project] *)

Section Scan.

Variable ast_parse : string -> exn + list ast.stmt.
Variable cleandoc : string -> string.
Variable __file__ : string.

(** The two nested loops of [scan_project] are one loop over the eligible
    files. *)
Lemma scan_project_steps (root_dir : string) (tree : dir) (w : world) :
  scan_project ast_parse cleandoc __file__ root_dir tree w
  = for_each (eligible_files __file__ root_dir tree)
      (scan_step ast_parse cleandoc) [] w.
Proof.
  unfold scan_project, eligible_files.
  rewrite <- for_each_flat_map.
  generalize (@nil (string * FileRecord)) as pd. revert w.
  induction (os_walk root_dir tree) as [|[[dirpath dirnames] filenames] walk IH];
    intros w pd; [reflexivity|].
  assert (forall pd w,
    for_each filenames
      (fun project_data nf =>
         let '(filename, f) := nf in
         if eligible __file__ filename
         then (data <- process_file ast_parse cleandoc
                         (os_path.join dirpath filename) f ;;
               if truthy (modules data)
               then ret (dict.set project_data (os_path.join dirpath filename) data)
               else ret project_data)%py
         else ret project_data) pd w
    = for_each (eligible_in __file__ dirpath filenames)
        (scan_step ast_parse cleandoc) pd w) as Hin.
  { clear. induction filenames as [|[filename f] filenames IH]; intros pd w;
      [reflexivity|].
    unfold eligible_in in *. cbn [for_each flat_map fst snd].
    destruct (eligible __file__ filename).
    - cbn [app for_each]. unfold scan_step at 1. cbn [fst snd].
      unfold bind in *.
      destruct (process_file ast_parse cleandoc (os_path.join dirpath filename) f w)
        as [[e|data] w']; [reflexivity|].
      destruct (truthy (modules data)); unfold ret; apply IH.
    - cbn [app]. unfold bind, ret in *. apply IH. }
  cbn [for_each fst snd]. unfold bind in *. rewrite Hin.
  destruct (for_each (eligible_in __file__ dirpath filenames)
              (scan_step ast_parse cleandoc) pd w) as [[e|pd'] w'];
    [reflexivity|].
  apply IH.
Qed.

(** The run of the scan over a list of files: it ends with the first file
    that cannot be opened, or with the collected data. *)
Lemma scan_files_run (l : list (string * file)) :
  forall pd w,
    for_each l (scan_step ast_parse cleandoc) pd w
    = (match outcome l with
       | Some e => inl e
       | None => inr (collect ast_parse cleandoc l pd)
       end,
       log w (diags ast_parse (attempted l)) (map fst (attempted l))).
Proof.
  induction l as [|[p f] l IH]; intros pd w.
  - simpl. unfold ret. now rewrite log_nil.
  - cbn [for_each]. unfold bind at 1, scan_step at 1, bind at 1. cbn [fst snd].
    rewrite process_file_run.
    destruct f as [e | e | text].
    + simpl. reflexivity.
    + cbn [modules]. 
      destruct (truthy (extract ast_parse cleandoc p (ReadFails e))) eqn:Ht;
        unfold ret; rewrite IH, log_log; cbn [outcome collect]; rewrite Ht;
        reflexivity.
    + cbn [modules].
      destruct (truthy (extract ast_parse cleandoc p (Content text))) eqn:Ht;
        unfold ret; rewrite IH, log_log; cbn [outcome collect]; rewrite Ht;
        reflexivity.
Qed.

End Scan.

(** ** Strings and joined paths *)

Module str_facts.
Import PyStr.

Lemma append_assoc (a b c : string) : (a +++ b) +++ c = a +++ b +++ c.
Proof. induction a as [|x a IH]; simpl; [reflexivity | now rewrite IH]. Qed.

Lemma append_inj_l (a x y : string) : a +++ x = a +++ y -> x = y.
Proof.
  induction a as [|c a IH]; simpl; intros H; [assumption|].
  injection H as H. auto.
Qed.

Lemma contains_char_append (c : ascii) (a b : string) :
  contains_char c (a +++ b) = contains_char c a || contains_char c b.
Proof.
  induction a as [|x a IH]; simpl; [reflexivity|].
  now rewrite IH, orb_assoc.
Qed.

Lemma last_char_cons (a b : ascii) (r : string) :
  last_char (String a (String b r)) = last_char (String b r).
Proof. reflexivity. Qed.

Lemma last_char_contains (s : string) (c : ascii) :
  last_char s = Some c -> contains_char c s = true.
Proof.
  induction s as [|a r IH]; [discriminate|].
  destruct r as [|b r].
  - intros [= ->]. simpl. now rewrite Ascii.eqb_refl.
  - rewrite last_char_cons. intros H.
    change (Ascii.eqb a c || contains_char c (String b r) = true).
    rewrite (IH H). apply orb_true_r.
Qed.

Lemma last_char_append (a : string) (c : ascii) (r : string) :
  last_char (a +++ String c r) = last_char (String c r).
Proof.
  induction a as [|x a IH]; [reflexivity|].
  cbn [String.append].
  destruct (a +++ String c r) as [|y t] eqn:E.
  - destruct a; discriminate.
  - rewrite last_char_cons. exact IH.
Qed.

Lemma endswith_last (s : string) (c : ascii) :
  endswith s (String c "") = true -> last_char s = Some c.
Proof.
  induction s as [|a r IH]; cbn [endswith].
  - simpl. discriminate.
  - destruct (String.eqb (String a r) (String c "")) eqn:E.
    + apply String.eqb_eq in E. injection E as -> ->. reflexivity.
    + intros H. specialize (IH H).
      destruct r as [|b r]; [discriminate|].
      rewrite last_char_cons. exact IH.
Qed.

(** Two texts that agree up to their first separator. *)
Lemma first_sep_inj (c : ascii) (s1 s2 r1 r2 : string) :
  contains_char c s1 = false -> contains_char c s2 = false ->
  s1 +++ String c r1 = s2 +++ String c r2 -> s1 = s2.
Proof.
  revert s2. induction s1 as [|a s1 IH]; intros [|b s2] H1 H2 E; simpl in *.
  - reflexivity.
  - injection E as -> _. now rewrite Ascii.eqb_refl in H2.
  - injection E as -> _. now rewrite Ascii.eqb_refl in H1.
  - injection E as -> E. apply orb_false_iff in H1, H2.
    f_equal. apply (IH s2); tauto.
Qed.

Lemma wf_name_inv (n : string) :
  wf_name n = true ->
  (exists c r, n = String c r) /\ contains_char os_path.sep n = false.
Proof.
  unfold wf_name. intros H. apply andb_true_iff in H. destruct H as [H1 H2].
  apply negb_true_iff in H1, H2. split; [|assumption].
  destruct n as [|c r]; [discriminate|]. eauto.
Qed.

(** Joining a proper name adds it after the directory prefix. *)
Lemma join_wf (top n : string) :
  wf_name n = true -> os_path.join top n = dir_prefix top +++ n.
Proof.
  intros H. destruct (wf_name_inv n H) as [(c & r & ->) Hc].
  unfold os_path.join, dir_prefix, startswith.
  cbn [String.prefix].
  destruct (ascii_dec "/" c) as [<- | _].
  - simpl in Hc. discriminate.
  - destruct (is_empty top || endswith top "/"); [reflexivity|].
    now rewrite append_assoc.
Qed.

Lemma dir_prefix_join (top n : string) :
  wf_name n = true ->
  dir_prefix (os_path.join top n) = dir_prefix top +++ n +++ "/".
Proof.
  intros H. rewrite (join_wf top n H).
  destruct (wf_name_inv n H) as [(c & r & ->) Hc].
  unfold dir_prefix at 1.
  assert (is_empty (dir_prefix top +++ String c r) = false) as ->
    by (destruct (dir_prefix top); reflexivity).
  destruct (endswith (dir_prefix top +++ String c r) "/") eqn:E.
  - apply endswith_last in E. rewrite last_char_append in E.
    apply last_char_contains in E. unfold os_path.sep in Hc. congruence.
  - simpl. now rewrite append_assoc.
Qed.

End str_facts.

(** ** The files of a directory tree *)

Section Tree.
Import str_facts.

Lemma distinct_NoDup (l : list string) : distinct l = true -> NoDup l.
Proof.
  induction l as [|x l IH]; simpl; intros H; constructor;
    apply andb_true_iff in H; destruct H as [H1 H2]; [|auto].
  intros Hin. apply negb_true_iff in H1.
  assert (existsb (String.eqb x) l = true); [|congruence].
  apply existsb_exists. exists x. split; [assumption | apply String.eqb_refl].
Qed.

Lemma wf_dir_inv (subdirs : list (string * dir)) (files : list (string * file)) :
  wf_dir (Dir subdirs files) = true ->
  (forall s d, In (s, d) subdirs -> wf_name s = true /\ wf_dir d = true)
  /\ (forall n f, In (n, f) files -> wf_name n = true)
  /\ NoDup (map fst subdirs) /\ NoDup (map fst files).
Proof.
  cbn [wf_dir]. rewrite !andb_true_iff.
  intros [[[[Hs Hf] Hds] Hdf] Hsub].
  rewrite forallb_forall in Hs, Hf, Hsub.
  repeat split.
  - apply Hs. apply in_map_iff. exists (s, d). auto.
  - apply (Hsub (s, d)). assumption.
  - intros n f Hin. apply Hf. apply in_map_iff. exists (n, f). auto.
  - now apply distinct_NoDup.
  - now apply distinct_NoDup.
Qed.

Lemma all_files_unfold (top : string) subdirs files :
  all_files top (Dir subdirs files)
  = map (fun nf => (top, fst nf, snd nf)) files
      ++ flat_map (fun nd => all_files (os_path.join top (fst nd)) (snd nd))
           subdirs.
Proof.
  unfold all_files. cbn [os_walk flat_map fst snd]. f_equal.
  induction subdirs as [|nd subdirs IH]; [reflexivity|].
  cbn [flat_map]. rewrite flat_map_app. now rewrite IH.
Qed.

(** The walk lists exactly the files that are in the tree, at any depth. *)
Lemma all_files_file_at (d : dir) :
  forall top dirpath n f,
    In (dirpath, n, f) (all_files top d) <-> file_at top d dirpath n f.
Proof.
  induction d as [subdirs files IH] using dir_ind'.
  intros top dirpath n f. rewrite all_files_unfold, in_app_iff.
  rewrite Forall_forall in IH. split.
  - intros [H | H].
    + apply in_map_iff in H. destruct H as ([n' f'] & [= <- <- <-] & H).
      now constructor.
    + apply in_flat_map in H. destruct H as ([s d] & Hs & H).
      apply (file_below top subdirs files s d); [assumption|].
      now apply (IH (s, d) Hs).
  - intros H. inversion H; subst.
    + left. apply in_map_iff. exists (n, f). auto.
    + right. apply in_flat_map. exists (s, d). split; [assumption|].
      now apply (IH (s, d)).
Qed.

(** Every path of the walk starts with the prefix of the top directory. *)
Lemma paths_shape (d : dir) :
  forall top, wf_dir d = true ->
  forall x, In x (all_files top d) ->
  exists rest, path_of x = dir_prefix top +++ rest.
Proof.
  induction d as [subdirs files IH] using dir_ind'.
  intros top Hwf x Hin. rewrite all_files_unfold in Hin.
  destruct (wf_dir_inv _ _ Hwf) as (Hsub & Hfiles & _ & _).
  rewrite Forall_forall in IH.
  apply in_app_or in Hin. destruct Hin as [Hin | Hin].
  - apply in_map_iff in Hin. destruct Hin as ([n f] & <- & Hin).
    exists n. unfold path_of. cbn [fst snd]. apply join_wf. eauto.
  - apply in_flat_map in Hin. destruct Hin as ([s d] & Hs & Hx).
    destruct (Hsub s d Hs) as [Hn Hd].
    destruct (IH (s, d) Hs (os_path.join top s) Hd x Hx) as [rest E].
    exists (s +++ "/" +++ rest). cbn [fst snd] in E.
    rewrite E, dir_prefix_join by assumption.
    now rewrite !append_assoc.
Qed.

Lemma NoDup_map_inj_on {A B} (g : A -> B) (l : list A) :
  (forall x y, In x l -> In y l -> g x = g y -> x = y) ->
  NoDup l -> NoDup (map g l).
Proof.
  induction l as [|a l IH]; intros Hinj Hnd; [constructor|].
  apply NoDup_cons_iff in Hnd. destruct Hnd as [Hnotin Hnd].
  cbn [map]. constructor.
  - intros Hin. apply in_map_iff in Hin. destruct Hin as (y & E & Hy).
    assert (y = a) by (apply Hinj; [now right | now left | assumption]).
    subst. contradiction.
  - apply IH; [|assumption]. intros x y Hx Hy. apply Hinj; now right.
Qed.

Lemma NoDup_flat_map {X Y} (g : X -> list Y) (l : list X) :
  NoDup l ->
  (forall x, In x l -> NoDup (g x)) ->
  (forall x1 x2 y, In x1 l -> In x2 l -> In y (g x1) -> In y (g x2) -> x1 = x2) ->
  NoDup (flat_map g l).
Proof.
  induction l as [|a l IH]; intros Hnd Heach Hcross; [constructor|].
  apply NoDup_cons_iff in Hnd. destruct Hnd as [Hnotin Hnd].
  cbn [flat_map]. apply NoDup_app.
  - apply Heach. now left.
  - apply IH; [assumption | |].
    + intros x Hx. apply Heach. now right.
    + intros x1 x2 y Hx1 Hx2. apply Hcross; now right.
  - intros y Hy Hy'. apply in_flat_map in Hy'. destruct Hy' as (x & Hx & Hyx).
    assert (a = x) by (apply (Hcross a x y); [now left | now right | assumption..]).
    subst. contradiction.
Qed.

Lemma map_flat_map {X Y Z} (h : Y -> Z) (g : X -> list Y) (l : list X) :
  map h (flat_map g l) = flat_map (fun x => map h (g x)) l.
Proof.
  induction l as [|a l IH]; [reflexivity|].
  cbn [flat_map]. now rewrite map_app, IH.
Qed.

Lemma NoDup_fst_functional {A B} (l : list (A * B)) (a : A) (b1 b2 : B) :
  NoDup (map fst l) -> In (a, b1) l -> In (a, b2) l -> b1 = b2.
Proof.
  induction l as [|[a' b'] l IH]; intros Hnd Hb1 Hb2; [contradiction|].
  cbn [map fst] in Hnd. apply NoDup_cons_iff in Hnd. destruct Hnd as [Hnotin Hnd].
  destruct Hb1 as [E1 | Hb1], Hb2 as [E2 | Hb2].
  - congruence.
  - injection E1 as -> ->. exfalso. apply Hnotin.
    apply in_map_iff. exists (a, b2). auto.
  - injection E2 as -> ->. exfalso. apply Hnotin.
    apply in_map_iff. exists (a, b1). auto.
  - now apply IH.
Qed.

(** In a well-formed tree no two files have the same joined path. *)
Lemma NoDup_paths (d : dir) :
  forall top, wf_dir d = true -> NoDup (map path_of (all_files top d)).
Proof.
  induction d as [subdirs files IH] using dir_ind'.
  intros top Hwf. rewrite all_files_unfold, map_app.
  destruct (wf_dir_inv _ _ Hwf) as (Hsub & Hfiles & Hnds & Hndf).
  rewrite Forall_forall in IH.
  assert (forall s d x, In (s, d) subdirs ->
            In x (all_files (os_path.join top s) d) ->
            exists rest, path_of x = dir_prefix top +++ s +++ String os_path.sep rest)
    as Hbelow.
  { intros s d x Hs Hx. destruct (Hsub s d Hs) as [Hn Hd].
    destruct (paths_shape d (os_path.join top s) Hd x Hx) as [rest E].
    exists rest. rewrite E, dir_prefix_join by assumption.
    now rewrite !append_assoc. }
  apply NoDup_app.
  - rewrite map_map. unfold path_of. cbn [fst snd].
    rewrite <- (map_map fst (os_path.join top)).
    apply NoDup_map_inj_on; [|assumption].
    intros x y Hx Hy. apply in_map_iff in Hx, Hy.
    destruct Hx as ([n f] & <- & Hx), Hy as ([n' f'] & <- & Hy). cbn [fst].
    rewrite !join_wf by eauto. apply append_inj_l.
  - rewrite map_flat_map. apply NoDup_flat_map.
    + apply NoDup_map_inv with (f := fst). assumption.
    + intros [s d] Hs. cbn [fst snd]. apply (IH (s, d) Hs).
      now apply (Hsub s d).
    + intros [s1 d1] [s2 d2] y H1 H2 Hy1 Hy2. cbn [fst snd] in *.
      apply in_map_iff in Hy1, Hy2.
      destruct Hy1 as (x1 & <- & Hx1), Hy2 as (x2 & E & Hx2).
      destruct (Hbelow s1 d1 x1 H1 Hx1) as [r1 E1].
      destruct (Hbelow s2 d2 x2 H2 Hx2) as [r2 E2].
      rewrite E1, E2 in E. apply append_inj_l in E.
      assert (s2 = s1).
      { apply (first_sep_inj os_path.sep s2 s1 r2 r1); [..|assumption].
        - apply wf_name_inv. now apply (Hsub s2 d2).
        - apply wf_name_inv. now apply (Hsub s1 d1). }
      subst. f_equal. eapply NoDup_fst_functional; eassumption.
  - intros y Hy Hy'. apply in_map_iff in Hy, Hy'.
    destruct Hy as (x & <- & Hx), Hy' as (x' & E & Hx').
    apply in_map_iff in Hx. destruct Hx as ([n f] & <- & Hn).
    apply in_flat_map in Hx'. destruct Hx' as ([s d] & Hs & Hx').
    destruct (Hbelow s d x' Hs Hx') as [rest E'].
    unfold path_of at 2 in E. cbn [fst snd] in E.
    rewrite E', join_wf in E by eauto. apply append_inj_l in E.
    assert (PyStr.contains_char os_path.sep n = false) as Hc
      by (apply wf_name_inv; eauto).
    rewrite <- E, contains_char_append in Hc. simpl in Hc.
    rewrite orb_true_r in Hc. discriminate.
Qed.

End Tree.

(** ** Checks on the sample inputs *)

Example basename_utils : os_path.basename "/proj/pkg/utils.py" = "utils.py".
Proof. reflexivity. Qed.
Example dirname_utils : os_path.dirname "/proj/pkg/utils.py" = "/proj/pkg".
Proof. reflexivity. Qed.
Example dirname_at_root : os_path.dirname "/main.py" = "/".
Proof. reflexivity. Qed.
Example join_utils : os_path.join "/proj/pkg" "utils.py" = "/proj/pkg/utils.py".
Proof. reflexivity. Qed.
Example replace_nonoverlapping : PyStr.replace "aaaa" "aa" "b" = "bb".
Proof. reflexivity. Qed.
Example module_name_utils : module_name_of "/proj/pkg/utils.py" = "utils".
Proof. reflexivity. Qed.
Example str_of_names :
  PyStr.str_of_list ["x"; "it's"]
  = "['x', " +++ String PyStr.dquote ("it's" +++ String PyStr.dquote "]").
Proof. reflexivity. Qed.

Example walk_nested_names :
  map name (file_functions sample.cleandoc sample.mod_nested)
  = ["m"; "late"; "inner"].
Proof. reflexivity. Qed.

Example scan_sample :
  fst (scan_project sample.ast_parse sample.cleandoc sample.script
         "/proj" sample.proj sample.w0)
  = inr [ ("/proj/a.py", {| modules := [("a", [sample.rec_foo])] |});
          ("/proj/pkg/utils.py",
           {| modules :=
                [("utils",
                  file_functions sample.cleandoc sample.mod_nested)] |}) ].
Proof. reflexivity. Qed.

Example scan_sample_console :
  console (snd (scan_project sample.ast_parse sample.cleandoc sample.script
                  "/proj" sample.proj sample.w0))
  = [ "Error parsing /proj/broken.py: invalid syntax (<unknown>, line 1)";
      "Error parsing /proj/blob.py: 'utf-8' codec can't decode byte 0xff in position 0: invalid start byte" ].
Proof. reflexivity. Qed.

(** ** The scan as a whole *)

Lemma dict_set_fresh {V} (d : list (string * V)) (k : string) (v : V) :
  ~ In k (dict.keys d) -> dict.set d k v = d ++ [(k, v)].
Proof.
  induction d as [|[k' v'] d IH]; intros Hk; [reflexivity|].
  cbn [dict.set]. destruct (String.eqb k' k) eqn:E.
  - apply String.eqb_eq in E. subst. exfalso. apply Hk. now left.
  - cbn [app]. f_equal. apply IH. intros Hin. apply Hk. now right.
Qed.

Lemma dict_get_set {V} (d : list (string * V)) (k : string) (v : V) :
  dict.get (dict.set d k v) k = Some v.
Proof.
  induction d as [|[k' v'] d IH]; cbn [dict.set dict.get].
  - now rewrite String.eqb_refl.
  - destruct (String.eqb k' k) eqn:E; cbn [dict.get]; rewrite E;
      [reflexivity | exact IH].
Qed.



Lemma NoDup_map_filter {A B} (g : A -> B) (c : A -> bool) (l : list A) :
  NoDup (map g l) -> NoDup (map g (filter c l)).
Proof.
  induction l as [|a l IH]; intros H; [constructor|].
  cbn [map] in H. apply NoDup_cons_iff in H. destruct H as [Hnotin H].
  cbn [filter]. destruct (c a); [|auto].
  cbn [map]. constructor; [|auto].
  intros Hin. apply Hnotin. apply in_map_iff in Hin.
  destruct Hin as (x & E & Hx). apply filter_In in Hx.
  apply in_map_iff. exists x. tauto.
Qed.

Section ScanFacts.

Variable ast_parse : string -> exn + list ast.stmt.
Variable cleandoc : string -> string.
Variable __file__ : string.

Local Abbreviation E := (eligible_files __file__).
Local Abbreviation functions_of := (functions_of ast_parse cleandoc).
Local Abbreviation entries := (entries ast_parse cleandoc).
Local Abbreviation scan := (scan_project ast_parse cleandoc __file__).

(** The eligible files are the files of the walk that pass the test. *)
Lemma eligible_files_filter (root_dir : string) (tree : dir) :
  E root_dir tree
  = map (fun x => (path_of x, snd x))
        (filter (fun x => eligible __file__ (snd (fst x)))
                (all_files root_dir tree)).
Proof.
  unfold eligible_files, all_files.
  induction (os_walk root_dir tree) as [|[[dirpath dirnames] filenames] l IH];
    [reflexivity|].
  cbn [flat_map fst snd]. rewrite filter_app, map_app, IH. f_equal.
  unfold eligible_in.
  induction filenames as [|[n f] filenames IHf]; [reflexivity|].
  cbn [flat_map map filter fst snd].
  destruct (eligible __file__ n); cbn [app map]; now rewrite IHf.
Qed.

Lemma eligible_paths_NoDup (root_dir : string) (tree : dir) :
  wf_dir tree = true -> NoDup (map fst (E root_dir tree)).
Proof.
  intros Hwf. rewrite eligible_files_filter, map_map. cbn [fst].
  apply NoDup_map_filter. now apply NoDup_paths.
Qed.

(** The eligible files are the files anywhere under the root whose name
    ends in [.py] and is not the script's. *)
Lemma eligible_files_spec (root_dir : string) (tree : dir) (p : string)
    (f : file) :
  In (p, f) (E root_dir tree) <->
  exists dirpath n,
    file_at root_dir tree dirpath n f
    /\ PyStr.endswith n ".py" = true
    /\ n <> os_path.basename __file__
    /\ p = os_path.join dirpath n.
Proof.
  rewrite eligible_files_filter, in_map_iff. split.
  - intros ([[dirpath n] f'] & [= <- <-] & Hin).
    apply filter_In in Hin. destruct Hin as [Hin He].
    cbn [fst snd] in He. unfold eligible in He.
    apply andb_true_iff in He. destruct He as [He1 He2].
    apply negb_true_iff, String.eqb_neq in He2.
    exists dirpath, n. repeat split; try assumption.
    now apply all_files_file_at.
  - intros (dirpath & n & Hat & He1 & He2 & ->).
    exists (dirpath, n, f). split; [reflexivity|].
    apply filter_In. split; [now apply all_files_file_at|].
    cbn [fst snd]. unfold eligible. rewrite He1.
    apply String.eqb_neq in He2. now rewrite He2.
Qed.

(** The run of [scan_project]. *)
Lemma scan_project_run (root_dir : string) (tree : dir) (w : world) :
  scan root_dir tree w
  = (match outcome (E root_dir tree) with
     | Some e => inl e
     | None => inr (collect ast_parse cleandoc (E root_dir tree) [])
     end,
     log w (diags ast_parse (attempted (E root_dir tree)))
           (map fst (attempted (E root_dir tree)))).
Proof. rewrite scan_project_steps. apply scan_files_run. Qed.

Lemma outcome_None_attempted (l : list (string * file)) :
  outcome l = None -> attempted l = l.
Proof.
  induction l as [|[p f] l IH]; [reflexivity|].
  destruct f; cbn [outcome attempted]; intros H;
    [discriminate | now rewrite IH..].
Qed.





(** With distinct paths every file adds its entry at the end. *)
Lemma collect_entries (l : list (string * file)) :
  NoDup (map fst l) ->
  forall pd,
    (forall p, In p (map fst l) -> ~ In p (dict.keys pd)) ->
    collect ast_parse cleandoc l pd = pd ++ entries l.
Proof.
  induction l as [|[p f] l IH]; intros Hnd pd Hfresh.
  - simpl. now rewrite app_nil_r.
  - cbn [map fst] in Hnd. apply NoDup_cons_iff in Hnd.
    destruct Hnd as [Hnotin Hnd].
    unfold entries. cbn [collect flat_map]. unfold entry_of at 1. cbn [fst snd].
    destruct (truthy (extract ast_parse cleandoc p f)).
    + rewrite IH; [|assumption|].
      * rewrite dict_set_fresh by (apply Hfresh; now left).
        now rewrite <- app_assoc.
      * intros q Hq. rewrite dict_set_fresh by (apply Hfresh; now left).
        unfold dict.keys. rewrite map_app, in_app_iff.
        intros [Hin | [<- | []]].
        -- apply (Hfresh q); [now right | assumption].
        -- contradiction.
    + cbn [app]. apply IH; [assumption|].
      intros q Hq. apply Hfresh. now right.
Qed.



(** A scan of a well-formed tree that returns: the data are the entries
    of the eligible files, every one of which was opened. *)
Lemma scan_project_inr (root_dir : string) (tree : dir) (w w' : world)
    (pd : ProjectData) :
  wf_dir tree = true ->
  scan root_dir tree w = (inr pd, w') ->
  outcome (E root_dir tree) = None
  /\ pd = entries (E root_dir tree)
  /\ w' = log w (diags ast_parse (E root_dir tree)) (map fst (E root_dir tree)).
Proof.
  intros Hwf. rewrite scan_project_run.
  destruct (outcome (E root_dir tree)) eqn:Ho; [discriminate|].
  rewrite (outcome_None_attempted _ Ho). intros [= <- <-].
  split; [reflexivity|]. split; [|reflexivity].
  rewrite collect_entries; [reflexivity | now apply eligible_paths_NoDup |].
  intros p _ [].
Qed.



End ScanFacts.


(* ================================================================== *)
(** * The claims *)











Lemma records_of_length (cleandoc : string -> string) (ns : list ast.node) :
  List.length (records_of cleandoc ns)
  = List.length (filter is_FunctionDef ns).
Proof.
  induction ns as [|n ns IH]; [reflexivity|].
  unfold records_of in *. cbn [flat_map filter]. rewrite length_app, IH.
  destruct n as [ | s | | | | | ]; try reflexivity.
  destruct s; reflexivity.
Qed.

Lemma concat_group (m : string) (l : list FunctionRecord) :
  List.concat (map snd (group m l)) = l.
Proof. destruct l; [reflexivity|]. cbn. now rewrite app_nil_r. Qed.

(** A coroutine definition is an [AsyncFunctionDef] node, not a
    [FunctionDef]: it gets no record of its own, while a [def] inside it
    does. *)
Example async_def_has_no_record :
  map name
    (records_of sample.cleandoc
       (ast.walk (ast.NModule
          [ast.AsyncFunctionDef "fetch" sample.no_arguments
             [sample.def_inner] [] None])))
  = ["inner"].
Proof. reflexivity. Qed.

(** C4.  For parameters [(a: int, b)] and the return annotation [str],
    [analyze_function] gives [args = [{name: a, type: int}, {name: b}]]
    and [returns = 'str']; in general a parameter of the positional list
    has the [type] key exactly when it is annotated, with the unparsed
    annotation; without a return annotation [returns] is [None]; and
    without a leading docstring [docstring] is the empty string. *)
Theorem C4_analyze_function_fields
    (cleandoc : string -> string) (fname : string) (body : list ast.stmt)
    (posonly kwonly : list ast.ast_arg) (vararg kwarg : option ast.ast_arg)
    (kw_defaults : list (option ast.expr)) (defaults : list ast.expr) :
  let params :=
    ast.mk_arguments posonly
      [ast.mk_arg "a" (Some (ast.Name "int")); ast.mk_arg "b" None]
      vararg kwonly kw_defaults kwarg defaults in
  let func := analyze_function cleandoc fname params body
                (Some (ast.Name "str")) in
  name func = fname
  /\ args func = [mk_arg_info "a" (Some "int"); mk_arg_info "b" None]
  /\ returns func = Some "str"
  /\ (forall a ret,
        args (analyze_function cleandoc fname a body ret)
        = map (fun p => mk_arg_info (ast.arg p)
                          (match ast.annotation p with
                           | Some t => Some (ast.unparse t)
                           | None => None
                           end))
              (ast.args a))
  /\ (forall a, returns (analyze_function cleandoc fname a body None) = None)
  /\ (forall a ret,
        match body with
        | ast.Expr (ast.Constant (ast.CStr text) _) :: _ =>
            docstring (analyze_function cleandoc fname a body ret)
            = cleandoc text
        | _ => docstring (analyze_function cleandoc fname a body ret) = ""
        end).
Proof.
  cbv zeta. split; [reflexivity|]. split; [reflexivity|].
  split; [reflexivity|]. split; [|split].
  - intros a ret. reflexivity.
  - intros a. reflexivity.
  - intros a ret. cbn [analyze_function docstring].
    destruct body as [|[ | | | | | [ | | | [ | | ] | ] | | ] rest]; reflexivity.
Qed.

Example analyze_no_docstring :
  analyze_function sample.cleandoc "late" sample.no_arguments [ast.Pass] None
  = mk_function "late" [] None "".
Proof. reflexivity. Qed.

(** Adding [.py] after a text creates no occurrence of [.py] that starts
    inside the text. *)
Lemma prefix_py_append (s : string) :
  s <> "" ->
  String.prefix ".py" s = false -> String.prefix ".py" (s +++ ".py") = false.
Proof.
  intros Hne.
  destruct s as [|c1 [|c2 [|c3 s]]]; [contradiction|..];
    cbn [String.prefix String.append];
    repeat (match goal with
            | |- context [ascii_dec ?a ?b] => destruct (ascii_dec a b)
            end; try subst; cbn [String.prefix String.append]);
    try congruence.
  destruct s; cbn [String.prefix]; congruence.
Qed.

(** When [.py] occurs in the base name only as its suffix, the module
    name is the base name without the suffix. *)
Lemma replace_single_suffix (stem : string) :
  has_substring ".py" stem = false ->
  PyStr.replace (stem +++ ".py") ".py" "" = stem.
Proof.
  unfold PyStr.replace.
  induction stem as [|c r IH]; intros H; [reflexivity|].
  cbn [has_substring] in H. apply orb_false_iff in H. destruct H as [Hp Hr].
  change (String c r +++ ".py") with (String c (r +++ ".py")).
  cbn [PyStr.replace_from].
  change (String c (r +++ ".py")) with (String c r +++ ".py").
  rewrite (prefix_py_append (String c r)) by (discriminate || assumption).
  f_equal. now apply IH.
Qed.

(** C5.  The module name is the base name with every occurrence of [.py]
    removed, not only the one at the end: the eligible file a.py.py is
    grouped under [a], where removing the suffix gives [a.py]. *)
Theorem C5_module_name_loses_every_dot_py :
  eligible sample.script "a.py.py" = true
  /\ module_name_of "/proj/a.py.py" = "a"
  /\ removesuffix (os_path.basename "/proj/a.py.py") ".py" = "a.py"
  /\ module_name_of "/proj/my.pyramid.py" = "myramid"
  /\ removesuffix (os_path.basename "/proj/my.pyramid.py") ".py" = "my.pyramid"
  /\ fst (process_file sample.ast_parse sample.cleandoc "/proj/a.py.py"
            (Content sample.src_foo) sample.w0)
     = inr {| modules := [("a", [sample.rec_foo])] |}.
Proof. repeat split. Qed.

(** ** [generate_report] in text mode *)

Lemma report_functions_text (fns : list FunctionRecord) :
  forall d l w,
    for_each fns (report_function false) (mk_locals d (Some l)) w
    = (inr (mk_locals d (Some (l ++ flat_map function_lines fns))), w).
Proof.
  induction fns as [|func fns IH]; intros d l w.
  - simpl. unfold ret. now rewrite app_nil_r.
  - cbn [for_each flat_map]. unfold bind at 1.
    unfold report_function, bind, lines_append, ret. cbn [lines doc].
    rewrite IH. unfold function_lines. now rewrite <- !app_assoc.
Qed.

Lemma report_modules_text (mods : ModuleMap) :
  forall d l w,
    for_each mods (report_module false) (mk_locals d (Some l)) w
    = (inr (mk_locals d (Some (l ++ flat_map module_lines mods))), w).
Proof.
  induction mods as [|[m fns] mods IH]; intros d l w.
  - simpl. unfold ret. now rewrite app_nil_r.
  - cbn [for_each flat_map]. unfold bind at 1.
    unfold report_module, bind, lines_append, ret. cbn [lines doc].
    rewrite report_functions_text, IH. unfold module_lines. cbn [fst snd].
    now rewrite <- !app_assoc.
Qed.

Lemma report_files_text (data : ProjectData) :
  forall d l w,
    for_each data (report_file false) (mk_locals d (Some l)) w
    = (inr (mk_locals d (Some (l ++ flat_map file_lines data))), w).
Proof.
  induction data as [|[p r] data IH]; intros d l w.
  - simpl. unfold ret. now rewrite app_nil_r.
  - cbn [for_each flat_map]. unfold bind at 1.
    unfold report_file, bind, lines_append, ret. cbn [lines doc].
    rewrite report_modules_text, IH. unfold file_lines. cbn [fst snd].
    now rewrite <- !app_assoc.
Qed.







Example main_sample_console :
  console (snd (main sample.ast_parse sample.cleandoc sample.abspath false
                  sample.script sample.proj sample.w0))
  = [ "Error parsing /proj/broken.py: invalid syntax (<unknown>, line 1)";
      "Error parsing /proj/blob.py: 'utf-8' codec can't decode byte 0xff in position 0: invalid start byte";
      "Text document generated: project_documentation.txt";
      "Install python-docx for Word document support" ].
Proof. reflexivity. Qed.

Example main_sample_docx :
  cwd (snd (main sample.ast_parse sample.cleandoc sample.abspath true
              sample.script
              (Dir [] [("a.py", Content sample.src_foo)]) sample.w0))
  = [ ("project_documentation.docx",
       DocxFile
         [ Heading "Project Documentation" 0;
           Heading "File: /proj/a.py" 1;
           Heading "Module: a" 2;
           Heading "foo" 3;
           Paragraph "Arguments: ['x']";
           Paragraph "Returns: bool";
           Paragraph "Description: desc" ]) ].
Proof. reflexivity. Qed.

(* ================================================================== *)
(** * Further properties of the program *)

(** ** The renderer in every mode *)

Lemma report_functions_docx (fns : list FunctionRecord) :
  forall d l w,
    for_each fns (report_function true) (mk_locals (Some d) l) w
    = (inr (mk_locals (Some (d ++ flat_map function_items fns)) l), w).
Proof.
  induction fns as [|func fns IH]; intros d l w.
  - simpl. unfold ret. now rewrite app_nil_r.
  - cbn [for_each flat_map]. unfold bind at 1.
    unfold report_function, bind, doc_add, ret. cbn [lines doc].
    rewrite IH. unfold function_items. now rewrite <- !app_assoc.
Qed.

Lemma report_modules_docx (mods : ModuleMap) :
  forall d l w,
    for_each mods (report_module true) (mk_locals (Some d) l) w
    = (inr (mk_locals (Some (d ++ flat_map module_items mods)) l), w).
Proof.
  induction mods as [|[m fns] mods IH]; intros d l w.
  - simpl. unfold ret. now rewrite app_nil_r.
  - cbn [for_each flat_map]. unfold bind at 1.
    unfold report_module, bind, doc_add, ret. cbn [lines doc].
    rewrite report_functions_docx, IH. unfold module_items. cbn [fst snd].
    now rewrite <- !app_assoc.
Qed.

Lemma report_files_docx (data : ProjectData) :
  forall d l w,
    for_each data (report_file true) (mk_locals (Some d) l) w
    = (inr (mk_locals (Some (d ++ flat_map file_items data)) l), w).
Proof.
  induction data as [|[p r] data IH]; intros d l w.
  - simpl. unfold ret. now rewrite app_nil_r.
  - cbn [for_each flat_map]. unfold bind at 1.
    unfold report_file, bind, doc_add, ret. cbn [lines doc].
    rewrite report_modules_docx, IH. unfold file_items. cbn [fst snd].
    now rewrite <- !app_assoc.
Qed.

(** With [doc] unbound the loop over the files raises at its first
    item. *)
Lemma report_files_unbound (entry : string * FileRecord) (data : ProjectData)
    (l : option (list string)) (w : world) :
  for_each (entry :: data) (report_file true) (mk_locals None l) w
  = (inl (unbound "doc"), w).
Proof. destruct entry as [p r]. reflexivity. Qed.

(** The run of [generate_report] on any input. *)
Lemma generate_report_run (Document : bool) (data : ProjectData)
    (output_format : string) (w : world) :
  generate_report Document data output_format w
  = if String.eqb output_format "docx" && negb Document && truthy data
    then (inl (unbound "doc"), w)
    else
      let '(fname, a, line) := report_artifact Document data output_format in
      if cwd_writable w
      then (inr tt, mk_world (console w ++ [line]) (opened w)
                      (dict.set (cwd w) fname a) (cwd_writable w))
      else (inl (mk_exn "PermissionError"
                   ("[Errno 13] Permission denied: " +++ PyStr.repr fname)), w).
Proof.
  unfold generate_report, report_artifact.
  destruct (String.eqb output_format "docx") eqn:Hfmt; cbn [andb negb].
  - destruct Document; cbn [andb negb].
    + unfold bind at 1. rewrite report_files_docx. cbn [doc app].
      unfold bind, write_file, print, render_docx.
      destruct (cwd_writable w); reflexivity.
    + destruct data as [|entry data]; cbn [truthy].
      * cbn [for_each]. unfold bind, ret, write_file, print. cbn [lines].
        destruct (cwd_writable w); reflexivity.
      * unfold bind at 1. now rewrite report_files_unbound.
  - unfold bind at 1. rewrite report_files_text. cbn [lines app].
    unfold bind, write_file, print, render_text.
    destruct (cwd_writable w); reflexivity.
Qed.

Lemma dict_get_set_other {V} (d : list (string * V)) (k k' : string) (v : V) :
  k' <> k -> dict.get (dict.set d k v) k' = dict.get d k'.
Proof.
  intros Hk. induction d as [|[q u] d IH]; cbn [dict.set dict.get].
  - apply String.eqb_neq in Hk. rewrite String.eqb_sym. now rewrite Hk.
  - destruct (String.eqb q k) eqn:E; cbn [dict.get].
    + apply String.eqb_eq in E. subst q.
      assert (String.eqb k k' = false) as ->
        by (apply String.eqb_neq; congruence).
      reflexivity.
    + now rewrite IH.
Qed.

(** X2.  Without the document library, the renderer called with ['docx']
    on a [ProjectData] that has at least one file raises
    [UnboundLocalError] for the variable [doc], and has by then neither
    printed nor written anything. *)
Theorem X2_docx_without_library_raises
    (data : ProjectData) (w : world) :
  data <> [] ->
  generate_report false data "docx" w = (inl (unbound "doc"), w).
Proof.
  intros Hne. rewrite generate_report_run.
  destruct data; [contradiction | reflexivity].
Qed.

Lemma X2_docx_without_library_raises_witness :
  sample.data_foo <> []
  /\ generate_report false sample.data_foo "docx" sample.w0
     = (inl (unbound "doc"), sample.w0).
Proof.
  assert (sample.data_foo <> []) as Hne by discriminate.
  split; [exact Hne|].
  exact (X2_docx_without_library_raises sample.data_foo sample.w0 Hne).
Defined.

(** X3.  A call of the renderer that returns has written exactly one
    file and printed exactly one line: the Word document and its
    confirmation when the format is ['docx'] and the library is present,
    the text report and its confirmation otherwise; every other file of
    the working directory is as it was, and no file was opened for
    reading. *)
Theorem X3_one_artifact_per_report
    (Document : bool) (data : ProjectData) (output_format : string)
    (w w' : world) :
  generate_report Document data output_format w = (inr tt, w') ->
  let '(fname, a, line) := report_artifact Document data output_format in
  console w' = console w ++ [line]
  /\ opened w' = opened w
  /\ dict.get (cwd w') fname = Some a
  /\ (forall other, other <> fname ->
        dict.get (cwd w') other = dict.get (cwd w) other)
  /\ (fname = docx_name
      <-> String.eqb output_format "docx" && Document = true).
Proof.
  rewrite generate_report_run.
  destruct (String.eqb output_format "docx" && negb Document && truthy data);
    [discriminate|].
  assert (fst (fst (report_artifact Document data output_format)) = docx_name
          <-> String.eqb output_format "docx" && Document = true) as Hname.
  { unfold report_artifact.
    destruct (String.eqb output_format "docx" && Document); cbn; split;
      congruence || discriminate. }
  destruct (report_artifact Document data output_format) as [[fname a] line].
  cbn [fst] in Hname.
  destruct (cwd_writable w); [|discriminate].
  intros [= <-]. cbn [console opened cwd].
  split; [reflexivity|]. split; [reflexivity|].
  split; [apply dict_get_set|]. split; [|exact Hname].
  intros other Hother. now apply dict_get_set_other.
Qed.

Lemma X3_one_artifact_per_report_witness :
  exists w',
    generate_report false sample.data_foo "txt"
      (mk_world [] [] [(docx_name, DocxFile [])] true) = (inr tt, w')
    /\ console w' = [txt_done]
    /\ dict.get (cwd w') docx_name = Some (DocxFile []).
Proof.
  eexists. split; [reflexivity|].
  pose proof (X3_one_artifact_per_report false sample.data_foo "txt"
                (mk_world [] [] [(docx_name, DocxFile [])] true) _ eq_refl)
    as H.
  cbn [report_artifact String.eqb andb] in H.
  destruct H as (Hconsole & _ & _ & Hother & _).
  split; [exact Hconsole|].
  apply (Hother docx_name). discriminate.
Defined.

(** ** The entry point *)

(** X6.  When the scan raises (a file cannot be opened), the entry point
    raises the same exception, whether the document library is present or
    not: no report of either kind is written and no confirmation or
    advisory line is printed after the diagnostics of the files scanned
    so far. *)
Theorem X6_main_without_report_on_scan_failure
    (ast_parse : string -> exn + list ast.stmt) (cleandoc : string -> string)
    (abspath : string -> string) (Document : bool) (__file__ : string)
    (tree : dir) (w w1 : world) (e : exn) :
  scan_project ast_parse cleandoc __file__
    (os_path.dirname (abspath __file__)) tree w = (inl e, w1) ->
  main ast_parse cleandoc abspath Document __file__ tree w = (inl e, w1)
  /\ cwd w1 = cwd w.
Proof.
  intros Hscan. split.
  - unfold main, bind. now rewrite Hscan.
  - rewrite scan_project_run in Hscan. now injection Hscan as _ <-.
Qed.

Lemma X6_main_without_report_on_scan_failure_witness :
  scan_project sample.ast_parse sample.cleandoc sample.script
    (os_path.dirname (sample.abspath sample.script)) sample.proj_locked
    sample.w0
  = (inl sample.permission_denied, mk_world [] ["/proj/locked.py"] [] true)
  /\ main sample.ast_parse sample.cleandoc sample.abspath true sample.script
       sample.proj_locked sample.w0
     = (inl sample.permission_denied, mk_world [] ["/proj/locked.py"] [] true).
Proof.
  split; [reflexivity|].
  exact (proj1 (X6_main_without_report_on_scan_failure sample.ast_parse
                  sample.cleandoc sample.abspath true sample.script
                  sample.proj_locked sample.w0 _ _ eq_refl)).
Defined.

(** ** What the scan reads and prints *)

Lemma attempted_firstn (l : list (string * file)) :
  exists k, attempted l = firstn k l.
Proof.
  induction l as [|[p f] l [k IH]]; [now exists 0|].
  destruct f as [e | e | text]; cbn [attempted].
  - exists 1. reflexivity.
  - exists (S k). cbn [firstn]. now rewrite IH.
  - exists (S k). cbn [firstn]. now rewrite IH.
Qed.

(** X7.  A scan only reads: whether it returns or raises, the files
    written and the writability of the working directory are as before,
    the console has only grown, and the paths opened are an initial
    segment of the eligible paths in the order of the walk. *)
Theorem X7_scan_only_reads
    (ast_parse : string -> exn + list ast.stmt) (cleandoc : string -> string)
    (__file__ root_dir : string) (tree : dir) (w : world) :
  let w' := snd (scan_project ast_parse cleandoc __file__ root_dir tree w) in
  cwd w' = cwd w
  /\ cwd_writable w' = cwd_writable w
  /\ (exists lines, console w' = console w ++ lines)
  /\ exists k,
       opened w'
       = opened w ++ firstn k (map fst (eligible_files __file__ root_dir tree)).
Proof.
  cbv zeta. rewrite scan_project_run. cbn [snd log cwd cwd_writable console opened].
  split; [reflexivity|]. split; [reflexivity|]. split; [eauto|].
  destruct (attempted_firstn (eligible_files __file__ root_dir tree)) as [k Hk].
  exists k. now rewrite Hk, firstn_map.
Qed.

Lemma diag_failure (ast_parse : string -> exn + list ast.stmt)
    (p : string) (f : file) :
  diag ast_parse p f
  = match failure ast_parse f with
    | Some e => ["Error parsing " +++ p +++ ": " +++ exn_str e]
    | None => []
    end.
Proof.
  destruct f as [e | e | text]; cbn [diag failure]; [reflexivity..|].
  destruct (ast_parse text); reflexivity.
Qed.

(** ** Paths and module names *)

Module path_facts.
Import PyStr str_facts.

Lemma endswith_split (s suffix : string) :
  endswith s suffix = true -> exists pre, s = pre +++ suffix.
Proof.
  induction s as [|c r IH]; cbn [endswith].
  - destruct (String.eqb "" suffix) eqn:E; [|discriminate].
    apply String.eqb_eq in E. subst. now exists "".
  - destruct (String.eqb (String c r) suffix) eqn:E.
    + apply String.eqb_eq in E. subst. now exists "".
    + intros H. destruct (IH H) as [pre ->]. now exists (String c pre).
Qed.

Lemma endswith_append (a n suffix : string) :
  endswith n suffix = true -> endswith (a +++ n) suffix = true.
Proof.
  intros H. induction a as [|c a IH]; [exact H|].
  cbn [String.append endswith].
  destruct (String.eqb (String c (a +++ n)) suffix); [reflexivity | exact IH].
Qed.

Lemma rsplit_nosep (n : string) :
  contains_char os_path.sep n = false -> os_path.rsplit n = ("", n).
Proof.
  induction n as [|c r IH]; [reflexivity|].
  cbn [contains_char os_path.rsplit]. intros H.
  apply orb_false_iff in H. destruct H as [Hc Hr].
  rewrite (IH Hr). now rewrite Hc.
Qed.

Lemma rsplit_sep (pre n : string) :
  contains_char os_path.sep n = false ->
  os_path.rsplit (pre +++ String os_path.sep n)
  = (pre +++ String os_path.sep "", n).
Proof.
  intros Hn. induction pre as [|c pre IH].
  - cbn [String.append os_path.rsplit]. rewrite (rsplit_nosep n Hn).
    now rewrite Ascii.eqb_refl.
  - cbn [String.append os_path.rsplit]. rewrite IH.
    destruct (pre +++ String os_path.sep "") eqn:E; [|reflexivity].
    destruct pre; discriminate.
Qed.

Lemma dir_prefix_cases (top : string) :
  dir_prefix top = "" \/ exists pre, dir_prefix top = pre +++ "/".
Proof.
  unfold dir_prefix. destruct top as [|c r]; [now left|]. right.
  cbn [is_empty orb].
  destruct (endswith (String c r) "/") eqn:E.
  - now apply endswith_split.
  - now exists (String c r).
Qed.

(** The base name of a joined path is the name that was joined. *)
Lemma basename_join (top n : string) :
  wf_name n = true -> os_path.basename (os_path.join top n) = n.
Proof.
  intros H. rewrite (join_wf top n H).
  destruct (wf_name_inv n H) as [_ Hc]. unfold os_path.basename.
  destruct (dir_prefix_cases top) as [-> | [pre ->]].
  - cbn [String.append]. now rewrite rsplit_nosep.
  - rewrite append_assoc. cbn [String.append].
    change "/"%char with os_path.sep. now rewrite rsplit_sep.
Qed.

Lemma file_at_wf_name (top : string) (d : dir) (dirpath n : string) (f : file) :
  file_at top d dirpath n f -> wf_dir d = true -> wf_name n = true.
Proof.
  induction 1 as [top subdirs files n f Hin
                 | top subdirs files s d dirpath n f Hs Hat IH]; intros Hwf;
    destruct (wf_dir_inv _ _ Hwf) as (Hsub & Hfiles & _ & _).
  - eauto.
  - apply IH. now apply (Hsub s d).
Qed.

End path_facts.

(** X11.  For a file found by the scan, the base name of the path that
    [scan_project] builds is the file name again, so the module name
    depends on the file name only: files of the same name in different
    directories get the same module name. *)
Theorem X11_module_name_ignores_directory
    (dirpath dirpath' n : string) :
  wf_name n = true ->
  os_path.basename (os_path.join dirpath n) = n
  /\ module_name_of (os_path.join dirpath n) = PyStr.replace n ".py" ""
  /\ module_name_of (os_path.join dirpath n)
     = module_name_of (os_path.join dirpath' n).
Proof.
  intros H. unfold module_name_of.
  rewrite !path_facts.basename_join by assumption. repeat split.
Qed.

Lemma X11_module_name_ignores_directory_witness :
  wf_name "main.py" = true
  /\ os_path.basename (os_path.join "/proj/pkg" "main.py") = "main.py"
  /\ module_name_of (os_path.join "/proj/pkg" "main.py")
     = PyStr.replace "main.py" ".py" ""
  /\ module_name_of (os_path.join "/proj/pkg" "main.py")
     = module_name_of (os_path.join "/" "main.py").
Proof.
  split; [reflexivity|].
  exact (X11_module_name_ignores_directory "/proj/pkg" "/" "main.py" eq_refl).
Defined.

(** X12.  For a file name [stem.py] in which [.py] occurs nowhere else,
    the module name of the file, in whatever directory it is, is
    [stem]. *)
Theorem X12_module_name_is_stem
    (dirpath stem : string) :
  wf_name (stem +++ ".py") = true ->
  has_substring ".py" stem = false ->
  module_name_of (os_path.join dirpath (stem +++ ".py")) = stem.
Proof.
  intros Hwf Hstem. unfold module_name_of.
  rewrite path_facts.basename_join by assumption.
  now apply replace_single_suffix.
Qed.

Lemma X12_module_name_is_stem_witness :
  wf_name ("report_utils" +++ ".py") = true
  /\ has_substring ".py" "report_utils" = false
  /\ module_name_of (os_path.join "/proj/pkg" ("report_utils" +++ ".py"))
     = "report_utils".
Proof.
  split; [reflexivity|]. split; [reflexivity|].
  exact (X12_module_name_is_stem "/proj/pkg" "report_utils" eq_refl eq_refl).
Defined.

Lemma attempted_incl (l : list (string * file)) (x : string * file) :
  In x (attempted l) -> In x l.
Proof.
  induction l as [|[p f] l IH]; [contradiction|].
  destruct f; cbn [attempted]; intros [<- | H];
    try (now left); try contradiction; right; auto.
Qed.

(** X13.  In a well-formed tree the scan never opens the running script,
    a file named like it, or a file whose name does not end in [.py]:
    every path it opens ends in [.py] and has a base name other than the
    script's, also when the scan raises. *)
Theorem X13_scan_never_opens_the_script
    (ast_parse : string -> exn + list ast.stmt) (cleandoc : string -> string)
    (__file__ root_dir : string) (tree : dir) (w : world) (p : string) :
  wf_dir tree = true ->
  In p (opened (snd (scan_project ast_parse cleandoc __file__ root_dir tree w))) ->
  In p (opened w)
  \/ (PyStr.endswith p ".py" = true
      /\ os_path.basename p <> os_path.basename __file__).
Proof.
  intros Hwf. rewrite scan_project_run. cbn [snd log opened].
  rewrite in_app_iff. intros [H | H]; [now left | right].
  apply in_map_iff in H. destruct H as ([p' f] & <- & Hin). cbn [fst].
  apply attempted_incl, eligible_files_spec in Hin.
  destruct Hin as (dirpath & n & Hat & Hpy & Hscript & ->).
  pose proof (path_facts.file_at_wf_name _ _ _ _ _ Hat Hwf) as Hn.
  rewrite path_facts.basename_join by assumption. split; [|assumption].
  rewrite (str_facts.join_wf dirpath n Hn).
  now apply path_facts.endswith_append.
Qed.

Lemma X13_scan_never_opens_the_script_witness :
  wf_dir sample.proj = true
  /\ In "/proj/pkg/utils.py"
        (opened (snd (scan_project sample.ast_parse sample.cleandoc
                        sample.script "/proj" sample.proj sample.w0)))
  /\ (In "/proj/pkg/utils.py" (opened sample.w0)
      \/ (PyStr.endswith "/proj/pkg/utils.py" ".py" = true
          /\ os_path.basename "/proj/pkg/utils.py"
             <> os_path.basename sample.script)).
Proof.
  assert (In "/proj/pkg/utils.py"
            (opened (snd (scan_project sample.ast_parse sample.cleandoc
                            sample.script "/proj" sample.proj sample.w0))))
    as Hin by (do 4 right; left; reflexivity).
  split; [reflexivity|]. split; [exact Hin|].
  exact (X13_scan_never_opens_the_script sample.ast_parse sample.cleandoc
           sample.script "/proj" sample.proj sample.w0 "/proj/pkg/utils.py"
           eq_refl Hin).
Defined.

(** ** The scan of a tree and of its subdirectories *)

Lemma flat_map_flat_map {X Y Z} (f : Y -> list Z) (g : X -> list Y)
    (l : list X) :
  flat_map f (flat_map g l) = flat_map (fun x => flat_map f (g x)) l.
Proof.
  induction l as [|x l IH]; [reflexivity|].
  cbn [flat_map]. now rewrite flat_map_app, IH.
Qed.

Lemma eligible_files_unfold (__file__ root_dir : string)
    (subdirs : list (string * dir)) (files : list (string * file)) :
  eligible_files __file__ root_dir (Dir subdirs files)
  = eligible_in __file__ root_dir files
      ++ flat_map (fun nd => eligible_files __file__
                               (os_path.join root_dir (fst nd)) (snd nd))
           subdirs.
Proof.
  unfold eligible_files. cbn [os_walk flat_map fst snd]. f_equal.
  now rewrite flat_map_flat_map.
Qed.

Lemma outcome_app (a b : list (string * file)) :
  outcome (a ++ b) = None -> outcome a = None /\ outcome b = None.
Proof.
  induction a as [|[p f] a IH]; [now split|].
  destruct f; cbn [app outcome]; [discriminate | exact IH..].
Qed.

Lemma outcome_flat_map {X} (g : X -> list (string * file)) (l : list X) :
  outcome (flat_map g l) = None -> forall x, In x l -> outcome (g x) = None.
Proof.
  induction l as [|y l IH]; intros H x Hin; [contradiction|].
  cbn [flat_map] in H. apply outcome_app in H. destruct H as [Hy Hl].
  destruct Hin as [<- | Hin]; auto.
Qed.

(** What a scan returns when every file can be opened. *)
Lemma scan_project_data
    (ast_parse : string -> exn + list ast.stmt) (cleandoc : string -> string)
    (__file__ root_dir : string) (tree : dir) (w : world) :
  wf_dir tree = true ->
  outcome (eligible_files __file__ root_dir tree) = None ->
  fst (scan_project ast_parse cleandoc __file__ root_dir tree w)
  = inr (entries ast_parse cleandoc (eligible_files __file__ root_dir tree)).
Proof.
  intros Hwf Ho. rewrite scan_project_run, Ho. cbn [fst]. f_equal.
  rewrite collect_entries; [reflexivity | now apply eligible_paths_NoDup |].
  intros p _ [].
Qed.

(** X9.  The data of a scanned directory are the data of its own files
    followed by the data of each of its subdirectories, in their order,
    where the data of a subdirectory are what a scan started at its joined
    path returns: files of a directory come before the files below
    it. *)
Theorem X9_scan_is_top_down
    (ast_parse : string -> exn + list ast.stmt) (cleandoc : string -> string)
    (__file__ root_dir : string)
    (subdirs : list (string * dir)) (files : list (string * file))
    (w w' : world) (pd : ProjectData) :
  wf_dir (Dir subdirs files) = true ->
  scan_project ast_parse cleandoc __file__ root_dir (Dir subdirs files) w
    = (inr pd, w') ->
  exists here below,
    pd = here ++ flat_map below subdirs
    /\ (forall w2,
          fst (scan_project ast_parse cleandoc __file__ root_dir
                 (Dir [] files) w2) = inr here)
    /\ (forall s d w2,
          In (s, d) subdirs ->
          fst (scan_project ast_parse cleandoc __file__
                 (os_path.join root_dir s) d w2) = inr (below (s, d))).
Proof.
  intros Hwf Hscan.
  destruct (scan_project_inr _ _ _ _ _ _ _ _ Hwf Hscan) as (Ho & -> & _).
  rewrite eligible_files_unfold in Ho |- *.
  apply outcome_app in Ho. destruct Ho as [Hhere Hbelow].
  exists (entries ast_parse cleandoc (eligible_in __file__ root_dir files)),
    (fun nd => entries ast_parse cleandoc
                 (eligible_files __file__ (os_path.join root_dir (fst nd))
                                 (snd nd))).
  destruct (wf_dir_inv _ _ Hwf) as (Hsub & Hfiles & Hnds & Hndf).
  split; [|split].
  - unfold entries. now rewrite flat_map_app, flat_map_flat_map.
  - intros w2.
    assert (wf_dir (Dir [] files) = true) as Hwf0.
    { cbn [wf_dir] in Hwf |- *. cbn [map forallb distinct andb].
      rewrite !andb_true_iff in Hwf. rewrite !andb_true_iff. tauto. }
    rewrite scan_project_data; rewrite ?eligible_files_unfold;
      cbn [flat_map]; rewrite ?app_nil_r; auto.
  - intros s d w2 Hin.
    rewrite scan_project_data; [reflexivity | now apply (Hsub s d) |].
    apply (outcome_flat_map _ _ Hbelow (s, d) Hin).
Qed.

Lemma X9_scan_is_top_down_witness :
  wf_dir sample.proj = true
  /\ exists pd w',
       scan_project sample.ast_parse sample.cleandoc sample.script "/proj"
         sample.proj sample.w0 = (inr pd, w')
       /\ exists here below,
            pd = here ++ flat_map below [("pkg", sample.pkg)]
            /\ (forall w2,
                  fst (scan_project sample.ast_parse sample.cleandoc
                         sample.script "/proj"
                         (Dir [] [("a.py", Content sample.src_foo);
                                  ("b.py", Content sample.src_pass);
                                  ("broken.py", Content sample.src_bad);
                                  ("blob.py", ReadFails sample.decode_error);
                                  ("main.py", Content sample.src_foo);
                                  ("notes.txt", Content "to do")]) w2)
                  = inr here)
            /\ (forall s d w2,
                  In (s, d) [("pkg", sample.pkg)] ->
                  fst (scan_project sample.ast_parse sample.cleandoc
                         sample.script (os_path.join "/proj" s) d w2)
                  = inr (below (s, d))).
Proof.
  split; [reflexivity|].
  eexists. eexists. split; [reflexivity|].
  exact (X9_scan_is_top_down sample.ast_parse sample.cleandoc sample.script
           "/proj" [("pkg", sample.pkg)]
           [("a.py", Content sample.src_foo);
            ("b.py", Content sample.src_pass);
            ("broken.py", Content sample.src_bad);
            ("blob.py", ReadFails sample.decode_error);
            ("main.py", Content sample.src_foo);
            ("notes.txt", Content "to do")]
           sample.w0 _ _ eq_refl eq_refl).
Defined.

(** ** The order of the records of a file *)

Lemma walk_loop_queue (q : list ast.node) :
  forall acc fuel,
    ast.walk_loop (List.length q + fuel) (q ++ acc)
    = q ++ ast.walk_loop fuel (acc ++ flat_map ast.iter_child_nodes q).
Proof.
  induction q as [|n q IH]; intros acc fuel.
  - cbn. now rewrite app_nil_r.
  - cbn [List.length Nat.add app ast.walk_loop flat_map]. f_equal.
    rewrite <- app_assoc, IH. now rewrite app_assoc.
Qed.

Lemma descendants_by_level (q : list ast.node) :
  List.length (flat_map ast.descendants q)
  = List.length q
    + List.length (flat_map ast.descendants
                     (flat_map ast.iter_child_nodes q)).
Proof.
  induction q as [|n q IH]; [reflexivity|].
  cbn [flat_map List.length]. rewrite ast_facts.descendants_unfold.
  cbn [app List.length]. rewrite flat_map_app, !length_app, IH. lia.
Qed.

(** The walk of a module: the module, its statements in their order, then
    the nodes below them. *)
Lemma walk_module (body : list ast.stmt) :
  ast.walk (ast.NModule body)
  = ast.NModule body :: map ast.NStmt body
      ++ ast.walk_loop (List.length (nested_nodes body))
           (flat_map ast.iter_child_nodes (map ast.NStmt body)).
Proof.
  unfold ast.walk, nested_nodes.
  rewrite ast_facts.descendants_unfold. cbn [List.length ast.iter_child_nodes].
  rewrite descendants_by_level. cbn [ast.walk_loop app ast.iter_child_nodes].
  f_equal.
  pose proof (walk_loop_queue (map ast.NStmt body) []
                (List.length (flat_map ast.descendants
                   (flat_map ast.iter_child_nodes (map ast.NStmt body)))))
    as H.
  rewrite app_nil_r in H. exact H.
Qed.

(** ** The items of the text report *)









(** ** The list of parameter names in the report *)

Lemma repr_char_plain (c : ascii) :
  plain_char c = true -> PyStr.repr_char PyStr.squote c = String c "".
Proof.
  unfold plain_char, PyStr.repr_char. cbv zeta.
  rewrite !andb_true_iff, !negb_true_iff.
  intros [[[Hq Hb] Hlo] Hhi]. rewrite Hq, Hb. cbn [orb].
  apply Nat.leb_le in Hlo. apply Nat.ltb_lt in Hhi.
  assert (Nat.eqb (nat_of_ascii c) 127 = false) as ->
    by (apply Nat.eqb_neq; lia).
  assert (Nat.eqb (nat_of_ascii c) 9 = false) as ->
    by (apply Nat.eqb_neq; lia).
  assert (Nat.eqb (nat_of_ascii c) 10 = false) as ->
    by (apply Nat.eqb_neq; lia).
  assert (Nat.eqb (nat_of_ascii c) 13 = false) as ->
    by (apply Nat.eqb_neq; lia).
  assert (Nat.ltb (nat_of_ascii c) 32 = false) as ->
    by (apply Nat.ltb_ge; lia).
  reflexivity.
Qed.

Lemma repr_plain (s : string) :
  plain s = true -> PyStr.repr s = "'" +++ s +++ "'".
Proof.
  intros H. unfold PyStr.repr.
  assert (PyStr.contains_char PyStr.squote s = false) as ->.
  { induction s as [|c r IH]; [reflexivity|].
    cbn [plain] in H. apply andb_true_iff in H. destruct H as [Hc Hr].
    cbn [PyStr.contains_char]. rewrite (IH Hr), orb_false_r.
    unfold plain_char in Hc. cbv zeta in Hc.
    rewrite !andb_true_iff, !negb_true_iff in Hc. tauto. }
  cbn [andb]. change ("'" +++ s +++ "'") with (String PyStr.squote (s +++ "'")).
  f_equal. change (String PyStr.squote "") with "'".
  induction s as [|c r IH]; [reflexivity|].
  cbn [plain] in H. apply andb_true_iff in H. destruct H as [Hc Hr].
  cbn [PyStr.repr_body]. rewrite (repr_char_plain c Hc), str_facts.append_assoc.
  cbn [String.append]. now rewrite (IH Hr).
Qed.

(* ================================================================== *)
(** * The program when [ast.unparse] can raise *)

(** ** The scan over any [process_file] of the same shape *)

Section ScanWith.

Variable process : string -> file -> M FileRecord.
Variable extract : string -> file -> ModuleMap.
Variable diag : string -> file -> list string.
Variable __file__ : string.

Hypothesis process_run :
  forall path f w,
    process path f w
    = (match f with
       | OpenFails e => inl e
       | _ => inr {| modules := extract path f |}
       end,
       log w (diag path f) [path]).

Lemma scan_with_files (l : list (string * file)) :
  forall pd w,
    for_each l
      (fun project_data pf =>
         (data <- process (fst pf) (snd pf) ;;
          if truthy (modules data)
          then ret (dict.set project_data (fst pf) data)
          else ret project_data)%py) pd w
    = (match outcome l with
       | Some e => inl e
       | None => inr (collect_with extract l pd)
       end,
       log w (flat_map (fun pf => diag (fst pf) (snd pf)) (attempted l))
             (map fst (attempted l))).
Proof.
  induction l as [|[p f] l IH]; intros pd w.
  - simpl. unfold ret. now rewrite log_nil.
  - cbn [for_each]. unfold bind at 1 2. cbn [fst snd].
    rewrite process_run.
    destruct f as [e | e | text].
    + cbn [outcome attempted flat_map map fst snd]. now rewrite app_nil_r.
    + cbn [modules].
      destruct (truthy (extract p (ReadFails e))) eqn:Ht;
        unfold ret; rewrite IH, log_log; cbn [outcome collect_with];
        rewrite Ht; reflexivity.
    + cbn [modules].
      destruct (truthy (extract p (Content text))) eqn:Ht;
        unfold ret; rewrite IH, log_log; cbn [outcome collect_with];
        rewrite Ht; reflexivity.
Qed.

(** The run of the scan. *)
Lemma scan_with_run (root_dir : string) (tree : dir) (w : world) :
  scan_with process __file__ root_dir tree w
  = (match outcome (eligible_files __file__ root_dir tree) with
     | Some e => inl e
     | None =>
         inr (collect_with extract (eligible_files __file__ root_dir tree) [])
     end,
     log w (flat_map (fun pf => diag (fst pf) (snd pf))
              (attempted (eligible_files __file__ root_dir tree)))
           (map fst (attempted (eligible_files __file__ root_dir tree)))).
Proof.
  rewrite <- scan_with_files. unfold scan_with, eligible_files.
  rewrite <- for_each_flat_map.
  generalize (@nil (string * FileRecord)) as pd. revert w.
  induction (os_walk root_dir tree) as [|[[dirpath dirnames] filenames] walk IH];
    intros w pd; [reflexivity|].
  assert (forall pd w,
    for_each filenames
      (fun project_data nf =>
         let '(filename, f) := nf in
         if eligible __file__ filename
         then (data <- process (os_path.join dirpath filename) f ;;
               if truthy (modules data)
               then ret (dict.set project_data (os_path.join dirpath filename) data)
               else ret project_data)%py
         else ret project_data) pd w
    = for_each (eligible_in __file__ dirpath filenames)
        (fun project_data pf =>
           (data <- process (fst pf) (snd pf) ;;
            if truthy (modules data)
            then ret (dict.set project_data (fst pf) data)
            else ret project_data)%py) pd w) as Hin.
  { clear IH. induction filenames as [|[filename f] filenames IH]; intros pd0 w0;
      [reflexivity|].
    unfold eligible_in in *. cbn [for_each flat_map fst snd].
    destruct (eligible __file__ filename).
    - cbn [app for_each fst snd]. unfold bind in *.
      destruct (process (os_path.join dirpath filename) f w0)
        as [[e|data] w1]; [reflexivity|].
      destruct (truthy (modules data)); unfold ret; apply IH.
    - cbn [app]. unfold bind, ret in *. apply IH. }
  cbn [for_each fst snd]. unfold bind in *. rewrite Hin.
  match goal with
  | |- context [for_each (eligible_in __file__ dirpath filenames) ?b pd w] =>
      destruct (for_each (eligible_in __file__ dirpath filenames) b pd w)
        as [[e|pd'] w']
  end; [reflexivity|].
  apply IH.
Qed.

End ScanWith.



(** ** [process_file] through an exception in its loop *)

Section FullFacts.

Variable ast_parse : string -> exn + list ast.stmt.
Variable cleandoc : string -> string.
Variable unparse_error : ast.expr -> option exn.

Lemma setdefault_group (m : string) (l : list FunctionRecord) :
  setdefault (group m l) m = [(m, l)].
Proof.
  unfold setdefault. destruct l as [|x l]; cbn [group dict.get].
  - reflexivity.
  - now rewrite String.eqb_refl.
Qed.

Lemma setdefault_append_at (m : string) (l : list FunctionRecord)
    (x : FunctionRecord) :
  setdefault_append [(m, l)] m x = group m (l ++ [x]).
Proof.
  unfold setdefault_append. cbn [dict.get]. rewrite String.eqb_refl.
  cbn [dict.set]. rewrite String.eqb_refl. now destruct l.
Qed.

(** The loop: all the records when no [analyze_function] raises, else the
    records of the nodes before the one that raises, under a key that is
    there even without records. *)
Lemma visit_all_run (path : string) (ns : list ast.node) :
  forall l,
    full.visit_all cleandoc unparse_error path ns
      (group (module_name_of path) l)
    = match full.walk_error unparse_error ns with
      | None =>
          (group (module_name_of path) (l ++ records_of cleandoc ns), None)
      | Some e =>
          ([(module_name_of path,
             l ++ records_of cleandoc (full.before_error unparse_error ns))],
           Some e)
      end.
Proof.
  induction ns as [|n ns IH]; intros l.
  - cbn. now rewrite app_nil_r.
  - destruct n as [ | s | | | | | ];
      try (cbn [full.visit_all full.walk_error full.before_error];
           rewrite IH; unfold records_of; cbn [flat_map record_of app];
           reflexivity).
    destruct s as [fname a body decos ret | | | | | | | ];
      try (cbn [full.visit_all full.walk_error full.before_error];
           rewrite IH; unfold records_of; cbn [flat_map record_of app];
           reflexivity).
    cbn [full.visit_all full.walk_error full.before_error].
    unfold full.analyze_function. rewrite setdefault_group.
    destruct (full.analyze_error unparse_error a ret) as [e|].
    + unfold records_of. cbn [flat_map]. now rewrite app_nil_r.
    + rewrite setdefault_append_at, IH.
      unfold records_of. cbn [flat_map record_of].
      destruct (full.walk_error unparse_error ns);
        now rewrite <- app_assoc.
Qed.

Lemma state_error (path : string) (f : file) :
  snd (full.state ast_parse cleandoc unparse_error path f)
  = full.failure ast_parse unparse_error f.
Proof.
  destruct f as [e | e | text]; cbn [full.state full.failure snd];
    try reflexivity.
  destruct (ast_parse text) as [e | body]; [reflexivity|].
  rewrite (visit_all_run path _ []).
  now destruct (full.walk_error unparse_error _).
Qed.

(** What [process_file] returns and does, for each kind of file. *)
Lemma full_process_file_run (path : string) (f : file) (w : world) :
  full.process_file ast_parse cleandoc unparse_error path f w
  = (match f with
     | OpenFails e => inl e
     | _ => inr {| modules :=
                     full.extract ast_parse cleandoc unparse_error path f |}
     end,
     log w (full.diag ast_parse cleandoc unparse_error path f) [path]).
Proof.
  unfold full.process_file, full.extract, full.diag, full.state, bind,
    try_except, open_r, read, parse, print, ret, raise, log.
  destruct f as [e | e | text]; cbn [fst snd console opened cwd cwd_writable].
  - now rewrite app_nil_r.
  - reflexivity.
  - destruct (ast_parse text) as [e | body];
      cbn [fst snd console opened cwd cwd_writable].
    + reflexivity.
    + destruct (full.visit_all cleandoc unparse_error path
                  (ast.walk (ast.NModule body)) []) as [mods [e|]];
        cbn [fst snd console opened cwd cwd_writable];
        rewrite ?app_nil_r; reflexivity.
Qed.

(** No [analyze_function] raises in the loop when none raises on a
    [FunctionDef] among the nodes. *)
Lemma walk_error_none (ns : list ast.node) :
  (forall fname a body decos ret,
      In (ast.NStmt (ast.FunctionDef fname a body decos ret)) ns ->
      full.analyze_error unparse_error a ret = None) ->
  full.walk_error unparse_error ns = None.
Proof.
  induction ns as [|n ns IH]; intros H; [reflexivity|].
  assert (full.walk_error unparse_error ns = None) as Hns
    by (apply IH; intros; eapply H; right; eassumption).
  destruct n as [ | s | | | | | ]; try exact Hns.
  destruct s as [fname a body decos ret | | | | | | | ]; try exact Hns.
  cbn [full.walk_error]. rewrite (H fname a body decos ret);
    [exact Hns | now left].
Qed.


End FullFacts.

(** ** The scan *)


(** The run of [scan_project]. *)
Lemma full_scan_run
    (ast_parse : string -> exn + list ast.stmt) (cleandoc : string -> string)
    (unparse_error : ast.expr -> option exn)
    (__file__ root_dir : string) (tree : dir) (w : world) :
  full.scan_project ast_parse cleandoc unparse_error __file__ root_dir tree w
  = (match outcome (eligible_files __file__ root_dir tree) with
     | Some e => inl e
     | None =>
         inr (collect_with (full.extract ast_parse cleandoc unparse_error)
                (eligible_files __file__ root_dir tree) [])
     end,
     log w (flat_map (fun pf => full.diag ast_parse cleandoc unparse_error
                                  (fst pf) (snd pf))
              (attempted (eligible_files __file__ root_dir tree)))
           (map fst (attempted (eligible_files __file__ root_dir tree)))).
Proof.
  unfold full.scan_project. apply scan_with_run.
  apply full_process_file_run.
Qed.





(** ** The records of a file *)

(** C6, as stated, fails.  A file with the one statement [async def
    fetch(url): pass] parses and defines a function, and [process_file]
    returns no record for it: the node is an [AsyncFunctionDef], which the
    [isinstance] test does not accept.  (And when [ast.unparse] raises on
    the annotation of [f], defined between [g] and [h], the loop ends
    there: only the record of [g] is returned and a diagnostic is printed
    for a file that parses.) *)
Lemma C6_counterexample :
  deep.ast_parse deep.src_async = inr [sample.def_fetch]
  /\ full.process_file deep.ast_parse sample.cleandoc deep.unparse_error
       "/proj/fetch.py" (Content deep.src_async) sample.w0
     = (inr {| modules := [] |}, mk_world [] ["/proj/fetch.py"] [] true)
  /\ full.process_file deep.ast_parse sample.cleandoc deep.unparse_error
       "/proj/deep.py" (Content deep.src_middle) sample.w0
     = (inr {| modules := [("deep", [mk_function "g" [] None ""])] |},
        mk_world
          ["Error parsing /proj/deep.py: maximum recursion depth exceeded"]
          ["/proj/deep.py"] [] true).
Proof. repeat split; vm_compute; reflexivity. Qed.

(** C6, as amended.  For a file that parses and on none of whose function
    definitions [analyze_function] raises, [process_file] returns one
    record for each [FunctionDef] node of the tree (each [def] statement),
    wherever the node is: at top level, in a class, in another function or
    coroutine, or under a statement of any other kind, at any depth; and
    none for any other node, an [async def] included.  The records are
    those of the [FunctionDef] nodes that [ast.walk] yields, and the walk
    yields every node of the tree once. *)
Theorem C6_one_record_per_def_statement
    (ast_parse : string -> exn + list ast.stmt) (cleandoc : string -> string)
    (unparse_error : ast.expr -> option exn)
    (path text : string) (body : list ast.stmt) (w : world) :
  ast_parse text = inr body ->
  (forall fname a b decos ret,
      In (ast.NStmt (ast.FunctionDef fname a b decos ret))
         (ast.descendants (ast.NModule body)) ->
      full.analyze_error unparse_error a ret = None) ->
  exists r,
    full.process_file ast_parse cleandoc unparse_error path (Content text) w
    = (inr r, log w [] [path])
    /\ let records := List.concat (map snd (modules r)) in
       let tree := ast.NModule body in
       records = records_of cleandoc (ast.walk tree)
       /\ Permutation (ast.walk tree) (ast.descendants tree)
       /\ Permutation records (records_of cleandoc (ast.descendants tree))
       /\ List.length records
          = List.length (filter is_FunctionDef (ast.descendants tree))
       /\ forall fname a b decos ret,
            In (ast.NStmt (ast.FunctionDef fname a b decos ret))
               (ast.descendants tree) ->
            In (analyze_function cleandoc fname a b ret) records.
Proof.
  intros Hparse Hok.
  pose proof (ast_facts.walk_complete (ast.NModule body)) as Hwalk.
  assert (full.walk_error unparse_error (ast.walk (ast.NModule body)) = None)
    as Hnone.
  { apply walk_error_none. intros fname a b decos ret Hin.
    apply (Hok fname a b decos ret).
    exact (Permutation_in _ Hwalk Hin). }
  exists {| modules := group (module_name_of path)
                         (records_of cleandoc (ast.walk (ast.NModule body))) |}.
  split.
  - rewrite full_process_file_run.
    unfold full.extract, full.diag, full.state. rewrite Hparse.
    rewrite (visit_all_run cleandoc unparse_error path _ []), Hnone.
    reflexivity.
  - cbn [modules]. rewrite concat_group.
    assert (Permutation (records_of cleandoc (ast.walk (ast.NModule body)))
              (records_of cleandoc (ast.descendants (ast.NModule body))))
      as Hrecs by (apply Permutation_flat_map; exact Hwalk).
    split; [reflexivity|]. split; [exact Hwalk|]. split; [exact Hrecs|]. split.
    + rewrite (Permutation_length Hrecs). apply records_of_length.
    + intros fname a b decos ret Hin.
      apply (Permutation_in _ (Permutation_sym Hrecs)).
      unfold records_of. apply in_flat_map.
      exists (ast.NStmt (ast.FunctionDef fname a b decos ret)).
      split; [exact Hin | now left].
Qed.

Lemma C6_one_record_per_def_statement_witness :
  deep.ast_parse deep.src_loop = inr deep.mod_loop
  /\ (forall fname a b decos ret,
        In (ast.NStmt (ast.FunctionDef fname a b decos ret))
           (ast.descendants (ast.NModule deep.mod_loop)) ->
        full.analyze_error deep.unparse_error a ret = None)
  /\ exists r,
       full.process_file deep.ast_parse sample.cleandoc deep.unparse_error
         "/proj/loop.py" (Content deep.src_loop) sample.w0
       = (inr r, log sample.w0 [] ["/proj/loop.py"])
       /\ map name (List.concat (map snd (modules r))) = ["each"]
       /\ List.length (List.concat (map snd (modules r))) = 1.
Proof.
  assert (forall fname a b decos ret,
            In (ast.NStmt (ast.FunctionDef fname a b decos ret))
               (ast.descendants (ast.NModule deep.mod_loop)) ->
            full.analyze_error deep.unparse_error a ret = None) as Hok.
  { intros fname a b decos ret Hin. vm_compute in Hin.
    repeat (destruct Hin as [Hin | Hin];
            [try discriminate Hin; injection Hin as _ <- _ _ <-;
             reflexivity|]).
    contradiction. }
  split; [vm_compute; reflexivity|]. split; [exact Hok|].
  destruct (C6_one_record_per_def_statement deep.ast_parse sample.cleandoc
              deep.unparse_error "/proj/loop.py" deep.src_loop deep.mod_loop
              sample.w0 eq_refl Hok) as (r & Hrun & Hrecs & _ & _ & Hlen & _).
  exists r. split; [exact Hrun|]. split.
  - rewrite Hrecs. reflexivity.
  - rewrite Hlen. reflexivity.
Defined.

(** A decorator that is a call, a default value and an annotation that
    is an operation: the function has its record, with the annotation as
    [ast.unparse] writes it. *)
Example def_with_decorator_and_default :
  full.process_file deep.ast_parse sample.cleandoc deep.unparse_error
    "/proj/web.py" (Content deep.src_web) sample.w0
  = (inr {| modules :=
              [("web", [mk_function "index"
                          [mk_arg_info "n" (Some "int | None")] None ""])] |},
     mk_world [] ["/proj/web.py"] [] true).
Proof. vm_compute. reflexivity. Qed.

(** X10.  For a file that parses and on none of whose function
    definitions [analyze_function] raises, the records start with those of
    the top-level [def] statements, in source order; the records of the
    functions nested in classes, functions or other statements all come
    after them. *)
Theorem X10_top_level_functions_first
    (ast_parse : string -> exn + list ast.stmt) (cleandoc : string -> string)
    (unparse_error : ast.expr -> option exn)
    (path text : string) (body : list ast.stmt) (w : world) :
  ast_parse text = inr body ->
  (forall fname a b decos ret,
      In (ast.NStmt (ast.FunctionDef fname a b decos ret))
         (ast.descendants (ast.NModule body)) ->
      full.analyze_error unparse_error a ret = None) ->
  exists r rest,
    full.process_file ast_parse cleandoc unparse_error path (Content text) w
    = (inr r, log w [] [path])
    /\ List.concat (map snd (modules r))
       = records_of cleandoc (map ast.NStmt body) ++ rest
    /\ Permutation rest (records_of cleandoc (nested_nodes body)).
Proof.
  intros Hparse Hok.
  assert (full.walk_error unparse_error (ast.walk (ast.NModule body)) = None)
    as Hnone.
  { apply walk_error_none. intros fname a b decos ret Hin.
    apply (Hok fname a b decos ret).
    exact (Permutation_in _ (ast_facts.walk_complete _) Hin). }
  exists {| modules := group (module_name_of path)
                         (records_of cleandoc (ast.walk (ast.NModule body))) |},
    (records_of cleandoc
       (ast.walk_loop (List.length (nested_nodes body))
          (flat_map ast.iter_child_nodes (map ast.NStmt body)))).
  split; [|split].
  - rewrite full_process_file_run.
    unfold full.extract, full.diag, full.state. rewrite Hparse.
    rewrite (visit_all_run cleandoc unparse_error path _ []), Hnone.
    reflexivity.
  - cbn [modules]. rewrite concat_group.
    rewrite walk_module. unfold records_of. cbn [flat_map record_of app].
    now rewrite flat_map_app.
  - apply Permutation_flat_map. apply ast_facts.walk_loop_enough.
    unfold nested_nodes. lia.
Qed.

Lemma X10_top_level_functions_first_witness :
  sample.ast_parse sample.src_nested = inr sample.mod_nested
  /\ (forall fname a b decos ret,
        In (ast.NStmt (ast.FunctionDef fname a b decos ret))
           (ast.descendants (ast.NModule sample.mod_nested)) ->
        full.analyze_error deep.unparse_error a ret = None)
  /\ exists r rest,
       full.process_file sample.ast_parse sample.cleandoc deep.unparse_error
         "/proj/pkg/utils.py" (Content sample.src_nested) sample.w0
       = (inr r, log sample.w0 [] ["/proj/pkg/utils.py"])
       /\ List.concat (map snd (modules r))
          = records_of sample.cleandoc (map ast.NStmt sample.mod_nested) ++ rest
       /\ Permutation rest
            (records_of sample.cleandoc (nested_nodes sample.mod_nested)).
Proof.
  assert (forall fname a b decos ret,
            In (ast.NStmt (ast.FunctionDef fname a b decos ret))
               (ast.descendants (ast.NModule sample.mod_nested)) ->
            full.analyze_error deep.unparse_error a ret = None) as Hok.
  { intros fname a b decos ret Hin. vm_compute in Hin.
    repeat (destruct Hin as [Hin | Hin];
            [try discriminate Hin; injection Hin as _ <- _ _ <-;
             reflexivity|]).
    contradiction. }
  split; [reflexivity|]. split; [exact Hok|].
  exact (X10_top_level_functions_first sample.ast_parse sample.cleandoc
           deep.unparse_error "/proj/pkg/utils.py" sample.src_nested
           sample.mod_nested sample.w0 eq_refl Hok).
Defined.

(** X8.  A scan that returns has printed exactly one line [Error parsing
    <path>: <message>] for each eligible file for which [f.read()],
    [ast.parse] or an [analyze_function] in the loop raised, in the order
    of the walk, and nothing for the files whose [try] block ran to its
    end. *)
Theorem X8_one_diagnostic_per_bad_file
    (ast_parse : string -> exn + list ast.stmt) (cleandoc : string -> string)
    (unparse_error : ast.expr -> option exn)
    (__file__ root_dir : string) (tree : dir) (w w' : world)
    (pd : ProjectData) :
  full.scan_project ast_parse cleandoc unparse_error __file__ root_dir tree w
    = (inr pd, w') ->
  let bad :=
    flat_map (fun pf =>
                match full.failure ast_parse unparse_error (snd pf) with
                | Some e => [(fst pf, e)]
                | None => []
                end)
             (eligible_files __file__ root_dir tree) in
  console w'
  = console w
      ++ map (fun pe => "Error parsing " +++ fst pe +++ ": " +++ exn_str (snd pe))
             bad
  /\ List.length bad
     = List.length
         (filter (fun pf =>
                    match full.failure ast_parse unparse_error (snd pf) with
                    | Some _ => true
                    | None => false
                    end)
                 (eligible_files __file__ root_dir tree)).
Proof.
  rewrite full_scan_run.
  destruct (outcome (eligible_files __file__ root_dir tree)) eqn:Ho;
    [discriminate|].
  rewrite (outcome_None_attempted _ Ho). intros [= _ <-]. cbv zeta.
  clear Ho. cbn [log console]. split.
  - f_equal.
    induction (eligible_files __file__ root_dir tree) as [|[p f] l IH];
      [reflexivity|].
    cbn [flat_map fst snd]. rewrite map_app, <- IH.
    unfold full.diag. rewrite state_error.
    destruct (full.failure ast_parse unparse_error f); reflexivity.
  - induction (eligible_files __file__ root_dir tree) as [|[p f] l IH];
      [reflexivity|].
    cbn [flat_map filter fst snd]. rewrite length_app, IH.
    destruct (full.failure ast_parse unparse_error f); reflexivity.
Qed.

Lemma X8_one_diagnostic_per_bad_file_witness :
  exists pd w',
    full.scan_project deep.ast_parse sample.cleandoc deep.unparse_error
      sample.script "/proj" deep.proj_mixed sample.w0 = (inr pd, w')
    /\ console w'
       = [ "Error parsing /proj/broken.py: invalid syntax (<unknown>, line 1)";
           "Error parsing /proj/deep.py: maximum recursion depth exceeded" ].
Proof.
  eexists. eexists. split; [vm_compute; reflexivity|].
  exact (proj1 (X8_one_diagnostic_per_bad_file deep.ast_parse
                  sample.cleandoc deep.unparse_error sample.script "/proj"
                  deep.proj_mixed sample.w0 _ _ eq_refl)).
Defined.

(** X16.  Also when the loop of [process_file] is ended by an exception,
    the module mapping returned has at most one key, the module name
    derived from the path; a key with an empty list of records is there
    only when [analyze_function] raised in the loop (before any record of
    the file was added). *)
Theorem X16_one_module_even_when_the_loop_raises
    (ast_parse : string -> exn + list ast.stmt) (cleandoc : string -> string)
    (unparse_error : ast.expr -> option exn)
    (path : string) (f : file) (w w' : world) (r : FileRecord) :
  full.process_file ast_parse cleandoc unparse_error path f w = (inr r, w') ->
  List.length (modules r) <= 1
  /\ (forall m fns, In (m, fns) (modules r) -> m = module_name_of path)
  /\ (forall m, In (m, []) (modules r) ->
        full.extraction_error ast_parse unparse_error f <> None).
Proof.
  rewrite full_process_file_run. intros H.
  assert (r = {| modules :=
                   full.extract ast_parse cleandoc unparse_error path f |})
    as -> by (destruct f; congruence).
  clear H. unfold full.extract, full.state, full.extraction_error.
  cbn [modules].
  destruct f as [e | e | text].
  - cbn. split; [lia | split; intros; contradiction].
  - cbn. split; [lia | split; intros; contradiction].
  - destruct (ast_parse text) as [e | body].
    + cbn. split; [lia | split; intros; contradiction].
    + rewrite (visit_all_run cleandoc unparse_error path _ []).
      generalize (ast.walk (ast.NModule body)). intros ns.
      destruct (full.walk_error unparse_error ns) as [e|]; cbn [fst app].
      * split; [cbn [List.length]; lia | split].
        -- intros m fns [H | []]. now injection H as <- _.
        -- discriminate.
      * unfold group.
        destruct (records_of cleandoc ns) as [|x l].
        -- cbn. split; [lia | split; intros; contradiction].
        -- split; [cbn [List.length]; lia | split].
           ++ intros m fns [H | []]. now injection H as <- _.
           ++ intros m [H | []]. discriminate H.
Qed.

Lemma X16_one_module_even_when_the_loop_raises_witness :
  full.process_file deep.ast_parse sample.cleandoc deep.unparse_error
    "/proj/deep.py" (Content deep.src_first) sample.w0
  = (inr {| modules := [("deep", [])] |},
     mk_world ["Error parsing /proj/deep.py: maximum recursion depth exceeded"]
       ["/proj/deep.py"] [] true)
  /\ List.length [("deep", @nil FunctionRecord)] <= 1
  /\ full.extraction_error deep.ast_parse deep.unparse_error
       (Content deep.src_first) <> None.
Proof.
  assert (full.process_file deep.ast_parse sample.cleandoc deep.unparse_error
            "/proj/deep.py" (Content deep.src_first) sample.w0
          = (inr {| modules := [("deep", [])] |},
             mk_world
               ["Error parsing /proj/deep.py: maximum recursion depth exceeded"]
               ["/proj/deep.py"] [] true)) as Hrun
    by (vm_compute; reflexivity).
  split; [exact Hrun|].
  destruct (X16_one_module_even_when_the_loop_raises deep.ast_parse
              sample.cleandoc deep.unparse_error "/proj/deep.py"
              (Content deep.src_first) sample.w0 _ _ Hrun)
    as (Hlen & _ & Hempty).
  split; [exact Hlen|].
  apply (Hempty "deep"). now left.
Defined.

(* ================================================================== *)
(** * The renderer when the libraries can raise *)

Section RenderFacts.

Variable Document : bool.
Variable refused : string -> option exn.
Variable encode_error : string -> option exn.

Local Abbreviation first_refused := (full.first_refused refused).

Lemma first_refused_app (a b : list doc_item) :
  first_refused (a ++ b)
  = match first_refused a with
    | Some e => Some e
    | None => first_refused b
    end.
Proof.
  induction a as [|item a IH]; [reflexivity|].
  cbn [app full.first_refused].
  destruct (refused (item_text item)); [reflexivity | exact IH].
Qed.

(** In text mode the renderer adds its lines as in the program above. *)
Lemma full_report_files_text (data : ProjectData) (loc : locals) (w : world) :
  for_each data (full.report_file refused false) loc w
  = for_each data (report_file false) loc w.
Proof. reflexivity. Qed.

Lemma full_report_functions_docx (fns : list FunctionRecord) :
  forall d l w,
    for_each fns (full.report_function refused true) (mk_locals (Some d) l) w
    = match first_refused (flat_map function_items fns) with
      | Some e => (inl e, w)
      | None =>
          (inr (mk_locals (Some (d ++ flat_map function_items fns)) l), w)
      end.
Proof.
  induction fns as [|func fns IH]; intros d l w.
  - cbn. unfold ret. now rewrite app_nil_r.
  - cbn [for_each flat_map]. unfold bind at 1.
    unfold function_items at 1.
    cbn [app full.first_refused item_text].
    unfold full.report_function, bind, full.doc_add, ret, raise.
    cbn [lines doc item_text].
    destruct (refused (name func)); [reflexivity|]. cbn [lines doc].
    destruct (refused ("Arguments: " +++ arg_names func)); [reflexivity|].
    cbn [lines doc].
    destruct (refused ("Returns: " +++ returns_or_None func));
      [reflexivity|].
    cbn [lines doc].
    destruct (refused ("Description: " +++ docstring func)); [reflexivity|].
    rewrite IH.
    destruct (first_refused (flat_map function_items fns)); [reflexivity|].
    unfold function_items at 2. now rewrite <- !app_assoc.
Qed.

Lemma full_report_modules_docx (mods : ModuleMap) :
  forall d l w,
    for_each mods (full.report_module refused true) (mk_locals (Some d) l) w
    = match first_refused (flat_map module_items mods) with
      | Some e => (inl e, w)
      | None =>
          (inr (mk_locals (Some (d ++ flat_map module_items mods)) l), w)
      end.
Proof.
  induction mods as [|[m fns] mods IH]; intros d l w.
  - cbn. unfold ret. now rewrite app_nil_r.
  - cbn [for_each flat_map]. unfold bind at 1.
    unfold module_items at 1. cbn [fst snd].
    cbn [app full.first_refused item_text]. rewrite first_refused_app.
    unfold full.report_module, bind, full.doc_add, ret, raise.
    cbn [lines doc item_text].
    destruct (refused ("Module: " +++ m)); [reflexivity|].
    rewrite full_report_functions_docx.
    destruct (first_refused (flat_map function_items fns)); [reflexivity|].
    rewrite IH.
    destruct (first_refused (flat_map module_items mods)); [reflexivity|].
    unfold module_items at 2. cbn [fst snd]. now rewrite <- !app_assoc.
Qed.

Lemma full_report_files_docx (data : ProjectData) :
  forall d l w,
    for_each data (full.report_file refused true) (mk_locals (Some d) l) w
    = match first_refused (flat_map file_items data) with
      | Some e => (inl e, w)
      | None =>
          (inr (mk_locals (Some (d ++ flat_map file_items data)) l), w)
      end.
Proof.
  induction data as [|[p r] data IH]; intros d l w.
  - cbn. unfold ret. now rewrite app_nil_r.
  - cbn [for_each flat_map]. unfold bind at 1.
    unfold file_items at 1. cbn [fst snd].
    cbn [app full.first_refused item_text]. rewrite first_refused_app.
    unfold full.report_file, bind, full.doc_add, ret, raise.
    cbn [lines doc item_text].
    destruct (refused ("File: " +++ p)); [reflexivity|].
    rewrite full_report_modules_docx.
    destruct (first_refused (flat_map module_items (modules r)));
      [reflexivity|].
    rewrite IH.
    destruct (first_refused (flat_map file_items data)); [reflexivity|].
    unfold file_items at 2. cbn [fst snd]. now rewrite <- !app_assoc.
Qed.

Lemma full_report_files_unbound (entry : string * FileRecord)
    (data : ProjectData) (l : option (list string)) (w : world) :
  for_each (entry :: data) (full.report_file refused true) (mk_locals None l) w
  = (inl (unbound "doc"), w).
Proof. destruct entry as [p r]. reflexivity. Qed.

(** The run of [generate_report] on any input. *)
Lemma full_generate_report_run (data : ProjectData) (output_format : string)
    (w : world) :
  full.generate_report Document refused encode_error data output_format w
  = if String.eqb output_format "docx" && negb Document && truthy data
    then (inl (unbound "doc"), w)
    else if String.eqb output_format "docx" && Document
    then
      match first_refused (flat_map file_items data) with
      | Some e => (inl e, w)
      | None =>
          if cwd_writable w
          then (inr tt, mk_world (console w ++ [docx_done]) (opened w)
                          (dict.set (cwd w) docx_name
                             (DocxFile (render_docx data)))
                          (cwd_writable w))
          else (inl (mk_exn "PermissionError"
                       ("[Errno 13] Permission denied: "
                          +++ PyStr.repr docx_name)), w)
      end
    else
      if cwd_writable w
      then match encode_error (render_text data) with
           | Some e =>
               (inl e, mk_world (console w) (opened w)
                         (dict.set (cwd w) txt_name (TextFile ""))
                         (cwd_writable w))
           | None =>
               (inr tt, mk_world (console w ++ [txt_done]) (opened w)
                          (dict.set (cwd w) txt_name
                             (TextFile (render_text data)))
                          (cwd_writable w))
           end
      else (inl (mk_exn "PermissionError"
                   ("[Errno 13] Permission denied: "
                      +++ PyStr.repr txt_name)), w).
Proof.
  unfold full.generate_report.
  destruct (String.eqb output_format "docx") eqn:Hfmt; cbn [andb negb].
  - destruct Document; cbn [andb negb].
    + unfold bind at 1. rewrite full_report_files_docx.
      destruct (first_refused (flat_map file_items data)); [reflexivity|].
      cbn [doc app].
      unfold bind, write_file, print, render_docx.
      destruct (cwd_writable w); reflexivity.
    + destruct data as [|entry data]; cbn [truthy].
      * cbn [for_each]. unfold bind, ret, full.write_text, print.
        cbn [lines]. unfold render_text. cbn [flat_map].
        destruct (cwd_writable w); [|reflexivity].
        destruct (encode_error (PyStr.join nl [])); reflexivity.
      * unfold bind at 1. now rewrite full_report_files_unbound.
  - unfold bind at 1. rewrite full_report_files_text, report_files_text.
    cbn [lines app].
    unfold bind, full.write_text, print, render_text.
    destruct (cwd_writable w); [|reflexivity].
    destruct (encode_error (PyStr.join nl (flat_map file_lines data)));
      reflexivity.
Qed.

(** Where the document library accepts every block and the text encodes,
    the renderer runs as the one of the program above. *)
Lemma full_report_agrees (data : ProjectData) (output_format : string)
    (w : world) :
  first_refused (flat_map file_items data) = None ->
  encode_error (render_text data) = None ->
  full.generate_report Document refused encode_error data output_format w
  = generate_report Document data output_format w.
Proof.
  intros Hdoc Htxt.
  rewrite full_generate_report_run, generate_report_run, Hdoc, Htxt.
  unfold report_artifact.
  destruct (String.eqb output_format "docx"), Document, (truthy data),
    (cwd_writable w); reflexivity.
Qed.

End RenderFacts.

(** X1.  With the document library present, the output file writable and
    no block refused by the library, the renderer called with ['docx']
    writes [project_documentation.docx], whose blocks are the title, then
    for each file its heading of level 1, for each of its modules a
    heading of level 2, and for each function a heading of level 3 and the
    three paragraphs, in the order of the mappings; it prints the Word
    confirmation line and does not touch the text report. *)
Theorem X1_docx_report
    (refused encode_error : string -> option exn)
    (data : ProjectData) (w : world) :
  cwd_writable w = true ->
  full.first_refused refused (flat_map file_items data) = None ->
  let written :=
    dict.set (cwd w) docx_name
      (DocxFile (Heading "Project Documentation" 0
                   :: flat_map file_items data)) in
  full.generate_report true refused encode_error data "docx" w
  = (inr tt, mk_world (console w ++ [docx_done]) (opened w) written true)
  /\ dict.get written txt_name = dict.get (cwd w) txt_name.
Proof.
  intros Hw Hdoc. cbv zeta. split.
  - rewrite full_generate_report_run. cbn [String.eqb Ascii.eqb Bool.eqb andb negb].
    rewrite Hdoc, Hw. reflexivity.
  - apply dict_get_set_other. discriminate.
Qed.

Lemma X1_docx_report_witness :
  full.generate_report true deep.refused deep.encode_error sample.data_foo
    "docx" sample.w0
  = (inr tt,
     mk_world [docx_done] []
       [(docx_name,
         DocxFile [ Heading "Project Documentation" 0;
                    Heading "File: /proj/a.py" 1;
                    Heading "Module: a" 2;
                    Heading "foo" 3;
                    Paragraph "Arguments: ['x']";
                    Paragraph "Returns: bool";
                    Paragraph "Description: desc" ])] true).
Proof.
  exact (proj1 (X1_docx_report deep.refused deep.encode_error
                  sample.data_foo sample.w0 eq_refl eq_refl)).
Defined.

(** A docstring with a control character: the library refuses its
    paragraph, the renderer raises and no document is written. *)
Example docx_report_refused :
  full.generate_report true deep.refused deep.encode_error deep.data_ctrl
    "docx" sample.w0
  = (inl (mk_exn "ValueError"
            ("All strings must be XML compatible: Unicode or ASCII, "
               +++ "no NULL bytes or control characters")),
     sample.w0).
Proof. vm_compute. reflexivity. Qed.

(** X4.  A call of the renderer that raises has printed nothing and has
    left the Word document as it was.  It has changed nothing at all,
    unless the exception is the encoder's: then the text report has been
    created or emptied by [open] and is left empty. *)
Theorem X4_failed_report_prints_nothing
    (Document : bool) (refused encode_error : string -> option exn)
    (data : ProjectData) (output_format : string) (w w' : world) (e : exn) :
  full.generate_report Document refused encode_error data output_format w
    = (inl e, w') ->
  console w' = console w
  /\ opened w' = opened w
  /\ dict.get (cwd w') docx_name = dict.get (cwd w) docx_name
  /\ (w' = w
      \/ (encode_error (render_text data) = Some e
          /\ cwd w' = dict.set (cwd w) txt_name (TextFile ""))).
Proof.
  rewrite full_generate_report_run.
  destruct (String.eqb output_format "docx" && negb Document && truthy data).
  { intros [= _ <-]. repeat split; auto. }
  destruct (String.eqb output_format "docx" && Document).
  - destruct (full.first_refused refused (flat_map file_items data)).
    + intros [= _ <-]. repeat split; auto.
    + destruct (cwd_writable w); [discriminate|].
      intros [= _ <-]. repeat split; auto.
  - destruct (cwd_writable w).
    + destruct (encode_error (render_text data)) as [x|]; [|discriminate].
      intros H. injection H as <- <-. cbn [console opened cwd].
      split; [reflexivity|]. split; [reflexivity|]. split.
      * apply dict_get_set_other. discriminate.
      * right. split; reflexivity.
    + intros [= _ <-]. repeat split; auto.
Qed.

Lemma X4_failed_report_prints_nothing_witness :
  full.generate_report false deep.refused deep.encode_error
    deep.data_surrogate "txt" sample.w0
  = (inl (mk_exn "UnicodeEncodeError" "surrogates not allowed"),
     mk_world [] [] [(txt_name, TextFile "")] true)
  /\ dict.get [(txt_name, TextFile "")] docx_name
     = dict.get (cwd sample.w0) docx_name.
Proof.
  assert (full.generate_report false deep.refused deep.encode_error
            deep.data_surrogate "txt" sample.w0
          = (inl (mk_exn "UnicodeEncodeError" "surrogates not allowed"),
             mk_world [] [] [(txt_name, TextFile "")] true)) as Hrun
    by (vm_compute; reflexivity).
  split; [exact Hrun|].
  exact (proj1 (proj2 (proj2
           (X4_failed_report_prints_nothing false deep.refused
              deep.encode_error deep.data_surrogate "txt" sample.w0 _ _
              Hrun)))).
Defined.

(** ** The entry point *)

(** X5.  With the document library present, when the scan has returned
    [pd], the output file is writable and the library refuses no block of
    the document of [pd], the entry point writes that document and prints
    its confirmation line after the diagnostics of the scan; neither the
    text report nor the advisory line is produced. *)
Theorem X5_main_with_library
    (ast_parse : string -> exn + list ast.stmt) (cleandoc : string -> string)
    (unparse_error : ast.expr -> option exn)
    (abspath : string -> string)
    (refused encode_error : string -> option exn)
    (__file__ : string) (tree : dir)
    (w w1 : world) (pd : ProjectData) :
  full.scan_project ast_parse cleandoc unparse_error __file__
    (os_path.dirname (abspath __file__)) tree w = (inr pd, w1) ->
  cwd_writable w = true ->
  full.first_refused refused (flat_map file_items pd) = None ->
  full.main ast_parse cleandoc unparse_error __file__ abspath true
    refused encode_error tree w
  = (inr tt,
     mk_world (console w1 ++ [docx_done]) (opened w1)
       (dict.set (cwd w) docx_name (DocxFile (render_docx pd))) true).
Proof.
  intros Hscan Hw Hdoc.
  assert (cwd_writable w1 = cwd_writable w /\ cwd w1 = cwd w) as [Hw1 Hcwd].
  { rewrite full_scan_run in Hscan. injection Hscan as _ <-. now split. }
  unfold full.main. unfold bind at 1. rewrite Hscan.
  rewrite full_generate_report_run.
  cbn [String.eqb Ascii.eqb Bool.eqb andb negb].
  rewrite Hdoc, Hw1, Hw, Hcwd. reflexivity.
Qed.

Lemma X5_main_with_library_witness :
  exists pd w1,
    full.scan_project sample.ast_parse sample.cleandoc deep.unparse_error
      sample.script (os_path.dirname (sample.abspath sample.script))
      sample.proj sample.w0
    = (inr pd, w1)
    /\ full.main sample.ast_parse sample.cleandoc deep.unparse_error
         sample.script sample.abspath true deep.refused deep.encode_error
         sample.proj sample.w0
       = (inr tt,
          mk_world (console w1 ++ [docx_done]) (opened w1)
            (dict.set (cwd sample.w0) docx_name (DocxFile (render_docx pd)))
            true).
Proof.
  eexists. eexists. split; [vm_compute; reflexivity|].
  exact (X5_main_with_library sample.ast_parse sample.cleandoc
           deep.unparse_error sample.abspath deep.refused
           deep.encode_error sample.script sample.proj sample.w0 _ _
           eq_refl eq_refl eq_refl).
Defined.

(** ** The line of the parameter names *)

(** X15.  For a function whose parameter names are made of printable
    ASCII characters other than the single quote and the backslash (as
    ASCII identifiers are), the block the renderer adds for it shows the
    names, each between single quotes, separated by a comma and a space,
    between brackets, on the [Inputs:] line in text mode and, when the
    document library refuses none of the four blocks, in the [Arguments:]
    paragraph in document mode; the types are not shown. *)
Theorem X15_inputs_line_shows_quoted_names
    (refused : string -> option exn)
    (func : FunctionRecord) (d : document) (l : list string) (w : world) :
  forallb plain (map arg_name (args func)) = true ->
  let shown :=
    "[" +++ PyStr.join ", "
              (map (fun a => "'" +++ arg_name a +++ "'") (args func))
        +++ "]" in
  full.report_function refused false (mk_locals None (Some l)) func w
  = (inr (mk_locals None
            (Some (l ++ [ nl +++ "Function: " +++ name func;
                          "Inputs: " +++ shown;
                          "Returns: " +++ returns_or_None func;
                          "Description: " +++ docstring func;
                          dashes ]))), w)
  /\ (full.first_refused refused (function_items func) = None ->
      full.report_function refused true (mk_locals (Some d) None) func w
      = (inr (mk_locals
                (Some (d ++ [ Heading (name func) 3;
                              Paragraph ("Arguments: " +++ shown);
                              Paragraph ("Returns: " +++ returns_or_None func);
                              Paragraph ("Description: " +++ docstring func) ]))
                None), w)).
Proof.
  intros H. cbv zeta.
  assert (arg_names func
          = "[" +++ PyStr.join ", "
                      (map (fun a => "'" +++ arg_name a +++ "'") (args func))
                +++ "]") as E.
  { assert (map PyStr.repr (map arg_name (args func))
            = map (fun a => "'" +++ arg_name a +++ "'") (args func)) as E0.
    { rewrite map_map. induction (args func) as [|a r IH]; [reflexivity|].
      cbn [map forallb] in H |- *. apply andb_true_iff in H.
      destruct H as [Ha Hr]. now rewrite (repr_plain _ Ha), (IH Hr). }
    unfold arg_names, PyStr.str_of_list. now rewrite E0. }
  rewrite <- E. split.
  - unfold full.report_function, bind, lines_append, ret. cbn [lines doc].
    now rewrite <- !app_assoc.
  - intros Href.
    pose proof (full_report_functions_docx refused [func] d None w) as Hrun.
    cbn [for_each flat_map] in Hrun. rewrite app_nil_r in Hrun.
    rewrite Href in Hrun. unfold bind, ret in Hrun.
    destruct (full.report_function refused true
                (mk_locals (Some d) None) func w) as [[e | loc] w1];
      [discriminate Hrun|].
    exact Hrun.
Qed.

Lemma X15_inputs_line_shows_quoted_names_witness :
  let func := mk_function "scale"
                [mk_arg_info "self" None; mk_arg_info "factor" (Some "float")]
                None "" in
  forallb plain (map arg_name (args func)) = true
  /\ full.report_function deep.refused false (mk_locals None (Some [])) func
       sample.w0
     = (inr (mk_locals None
               (Some [ nl +++ "Function: scale";
                       "Inputs: ['self', 'factor']";
                       "Returns: None";
                       "Description: ";
                       dashes ])), sample.w0)
  /\ full.report_function deep.refused true (mk_locals (Some []) None) func
       sample.w0
     = (inr (mk_locals
               (Some [ Heading "scale" 3;
                       Paragraph "Arguments: ['self', 'factor']";
                       Paragraph "Returns: None";
                       Paragraph "Description: " ])
               None), sample.w0).
Proof.
  cbv zeta. split; [reflexivity|].
  pose proof (X15_inputs_line_shows_quoted_names deep.refused
                (mk_function "scale"
                   [mk_arg_info "self" None;
                    mk_arg_info "factor" (Some "float")]
                   None "") [] [] sample.w0 eq_refl) as [Htxt Hdoc].
  split; [exact Htxt | exact (Hdoc eq_refl)].
Defined.
